(** * gomarket: the forecast-invocation and chart-assembly pipeline

    A shallow embedding of [main.go]: [callPythonARIMA] (stage the embedded
    predictor, run it, decode its answer), [plotData] (window the prices,
    place the forecast, build and save the chart) and the "Fetch Data"
    handler of [main] that sequences them.

    Go values are modelled as follows.
    - [float64] is Rocq's primitive binary64 [float].
    - [int] is [Z]; every integer computed here is bounded by the length
      of a slice, so no operation wraps.
    - a slice is a [list] (a slice that is not [nil]); indexing outside
      [0 <= i < len] panics, which the model writes as [None]. [None] is
      also the result of a call into the chart library that does not
      return.
    - [error] is an inductive type with the dynamic error types that reach
      this program; a [nil] error is [None].
    - the file system, the log and the calls made to the operating system
      are an explicit [World] threaded through the code. *)

From Stdlib Require Import ZArith Lia Bool Ascii String DecimalString.
From Stdlib Require Import PrimFloat FloatOps Uint63.
From stdpp Require Import base option list gmap strings.

Local Open Scope Z_scope.

(** ** Numbers *)

Abbreviation float64 := PrimFloat.float.

(** [float64(n)] for a Go [int] [n] that is not negative. *)
Definition float64_of_int (n : Z) : float64 :=
  PrimFloat.of_uint63 (Uint63.of_Z n).

(** Neither NaN nor an infinity: what [encoding/json] can encode and what
    gonum's [plotter.CheckFloats] lets through. *)
Definition is_finite (f : float64) : bool :=
  negb (PrimFloat.is_nan f || PrimFloat.is_infinity f).

(** The whole number a float holds, if it holds one. *)
Definition whole_of_float (f : float64) : option Z :=
  match Prim2SF f with
  | SpecFloat.S754_zero _ => Some 0
  | SpecFloat.S754_finite s m e =>
      let n := if 0 <=? e then Z.pos m * 2 ^ e else Z.pos m / 2 ^ (- e) in
      if (0 <=? e) || (Z.pos m mod 2 ^ (- e) =? 0)
      then Some (if s then - n else n)
      else None
  | _ => None
  end.

(** [math.Min(x, y)]: a NaN if either is one, the negative zero of two
    zeros, else the smaller. *)
Definition math_Min (x y : float64) : float64 :=
  if PrimFloat.is_nan x || PrimFloat.is_nan y then PrimFloat.nan
  else if PrimFloat.eqb x 0%float && PrimFloat.eqb y 0%float
       then (if PrimFloat.get_sign x then x else y)
       else if PrimFloat.ltb x y then x else y.

(** [len(s)] as a Go [int]. *)
Definition len {A} (s : list A) : Z := Z.of_nat (length s).

(** [s[i]]: a run-time panic ([None]) when [i] is out of range. *)
Definition index {A} (s : list A) (i : Z) : option A :=
  if (0 <=? i) && (i <? len s) then s !! Z.to_nat i else None.

(** [s[i] = f(s[i])] in place: the same panic when [i] is out of range. *)
Definition update {A} (s : list A) (i : Z) (f : A -> A) : option (list A) :=
  match index s i with
  | Some a => Some (<[Z.to_nat i := f a]> s)
  | None => None
  end.

(** [for i := lo; i < hi; i++ { body }] for a body that leaves [i] alone:
    the body runs at [lo], [lo+1], ... while [i < hi]; a panic in the body
    ends the loop. [n] counts the iterations left. *)
Fixpoint for_loop {S} (n : nat) (i : Z) (body : Z -> S -> option S) (s : S)
  : option S :=
  match n with
  | O => Some s
  | Datatypes.S n' =>
      match body i s with
      | Some s' => for_loop n' (i + 1) body s'
      | None => None
      end
  end.

Definition for_range {S} (lo hi : Z) (body : Z -> S -> option S) (s : S)
  : option S :=
  for_loop (Z.to_nat (hi - lo)) lo body s.

(** ** plotter.XYs *)

Record XY := mkXY { X : float64; Y : float64 }.

Definition zeroXY : XY := mkXY 0%float 0%float.

(** [make(plotter.XYs, n)] *)
Definition make_XYs (n : Z) : list XY := replicate (Z.to_nat n) zeroXY.

Definition set_X (x : float64) (p : XY) : XY := mkXY x (Y p).
Definition set_Y (y : float64) (p : XY) : XY := mkXY (X p) y.

(** [int(math.Min(90, float64(n)))] for [n = len(prices)]. [float64(n)] is
    exact up to [2^53], above it the minimum is [90] whatever the rounding,
    so the result is the integer minimum. [min90_float] is the same through
    the floats, to compare the two on a range of lengths. *)
Definition min90 (n : Z) : Z := Z.min 90 n.

Definition min90_float (n : Z) : option Z :=
  whole_of_float (math_Min 90%float (float64_of_int n)).

(** [startIndex := len(prices) - int(math.Min(90, float64(len(prices))))] *)
Definition startIndex (prices : list float64) : Z :=
  len prices - min90 (len prices).

(** The first loop of [plotData]:
<<
  stockPoints := make(plotter.XYs, len(prices)-startIndex)
  for i := startIndex; i < len(prices); i++ {
      stockPoints[i-startIndex].X = float64(i - startIndex)
      stockPoints[i-startIndex].Y = prices[i]
  }
>> *)
Definition stockPoints_body (prices : list float64) (start : Z)
    (i : Z) (pts : list XY) : option (list XY) :=
  pts1 ← update pts (i - start) (set_X (float64_of_int (i - start)));
  y ← index prices i;
  update pts1 (i - start) (set_Y y).

Definition stockPoints (prices : list float64) : option (list XY) :=
  let start := startIndex prices in
  for_range start (len prices) (stockPoints_body prices start)
    (make_XYs (len prices - start)).

(** The second loop of [plotData]:
<<
  predPoints := make(plotter.XYs, len(predictions))
  for i := range predictions {
      predPoints[i].X = float64(len(prices) - startIndex + i)
      predPoints[i].Y = predictions[i]
  }
>> *)
Definition predPoints_body (prices predictions : list float64) (start : Z)
    (i : Z) (pts : list XY) : option (list XY) :=
  pts1 ← update pts i (set_X (float64_of_int (len prices - start + i)));
  y ← index predictions i;
  update pts1 i (set_Y y).

Definition predPoints (prices predictions : list float64)
  : option (list XY) :=
  let start := startIndex prices in
  for_range 0 (len predictions) (predPoints_body prices predictions start)
    (make_XYs (len predictions)).

(** The prices the chart shows: the [Y] values of the stock points. *)
Definition historicalWindow (prices : list float64) : option (list float64) :=
  fmap (M:=list) Y <$> stockPoints prices.

(** The closed forms the two loops are proved to compute: the trailing
    (at most 90) prices, and a run of values placed at consecutive
    horizontal indices from [base] on. *)
Definition trailing (prices : list float64) : list float64 :=
  drop (length prices - 90) prices.

Definition points_from (base : nat) (ys : list float64) : list XY :=
  imap (fun k y => mkXY (float64_of_int (Z.of_nat (base + k))) y) ys.

(** ** Errors *)

(** The dynamic types of the [error] values that reach this program. *)
Inductive error :=
| UnsupportedValueError (Str : string)
    (* encoding/json: a NaN or an infinity cannot be encoded *)
| PathError (Op Path Err : string)
    (* os: a file operation or the start of a process failed *)
| ExitError (status : Z)
    (* os/exec: the process ran and ended with a non-zero status *)
| SyntaxError (msg : string) (Offset : Z)
    (* encoding/json: the input is not JSON *)
| UnmarshalTypeError (Value : string) (Offset : Z)
    (* encoding/json: JSON of the wrong shape for the target *)
| PlotterError (msg : string)
    (* gonum plotter: ErrNaN, ErrInfinity *)
| OtherError (msg : string).
    (* anything else, e.g. a network error of net/http *)

Definition string_of_Z (n : Z) : string :=
  DecimalString.NilZero.string_of_int (Z.to_int n).

(** The [Error()] method. An [*exec.ExitError] prints its process state;
    its [Stderr] field is filled by [Cmd.Output] only, never by [Cmd.Run]. *)
Definition Error (e : error) : string :=
  match e with
  | UnsupportedValueError str => "json: unsupported value: " +:+ str
  | PathError op path err => op +:+ " " +:+ path +:+ ": " +:+ err
  | ExitError status => "exit status " +:+ string_of_Z status
  | SyntaxError msg _ => msg
  | UnmarshalTypeError value _ =>
      "json: cannot unmarshal " +:+ value
      +:+ " into Go value of type []float64"
  | PlotterError msg => msg
  | OtherError msg => msg
  end.

(** [strings.Contains(hay, needle)]: used to say that an error text
    carries some other text. *)
Fixpoint contains (needle hay : string) : bool :=
  String.prefix needle hay
  || match hay with
     | EmptyString => false
     | String _ rest => contains needle rest
     end.

(** ** The chart *)

Module color.
Record RGBA := mkRGBA { R : Z; G : Z; B : Z; A : Z }.
(** [color.Black], the colour of gonum's [DefaultLineStyle]. *)
Definition Black : RGBA := mkRGBA 0 0 0 255.
End color.

(** [plotter.Line], as far as this program sets or reads it. *)
Record Line := mkLine { XYs : list XY; Color : color.RGBA }.

(** [plot.Plot], as far as this program sets it: title and axis labels,
    the plotters added with [p.Add] and the entries of [p.Legend]. *)
Record Plot := mkPlot {
  Title : string;
  X_Label : string;
  Y_Label : string;
  plotters : list Line;
  Legend : list (string * Line)
}.

(** [plot.New()] *)
Definition plot_New : Plot := mkPlot EmptyString EmptyString EmptyString [] [].

(** [p.Title.Text = t], [p.X.Label.Text = t], [p.Y.Label.Text = t] *)
Definition set_Title (t : string) (p : Plot) : Plot :=
  mkPlot t (X_Label p) (Y_Label p) (plotters p) (Legend p).
Definition set_X_Label (t : string) (p : Plot) : Plot :=
  mkPlot (Title p) t (Y_Label p) (plotters p) (Legend p).
Definition set_Y_Label (t : string) (p : Plot) : Plot :=
  mkPlot (Title p) (X_Label p) t (plotters p) (Legend p).

(** [p.Add(ps...)] *)
Definition Plot_Add (ps : list Line) (p : Plot) : Plot :=
  mkPlot (Title p) (X_Label p) (Y_Label p) (plotters p ++ ps) (Legend p).

(** [p.Legend.Add(name, l)] *)
Definition Legend_Add (name : string) (l : Line) (p : Plot) : Plot :=
  mkPlot (Title p) (X_Label p) (Y_Label p) (plotters p)
         (Legend p ++ [(name, l)]).

(** [vg.Inch]: gonum's lengths are in points, 72 to the inch. *)
Definition vg_Inch : float64 := 72%float.

Definition finite_XY (p : XY) : bool := is_finite (X p) && is_finite (Y p).

(** gonum's [plotter.CheckFloats]. *)
Definition CheckFloats (f : float64) : option error :=
  if PrimFloat.is_nan f then Some (PlotterError "plotter: NaN data point")
  else if PrimFloat.is_infinity f
       then Some (PlotterError "plotter: infinite data point")
       else None.

(** gonum's [plotter.CopyXYs]: a copy of the points, or the error of the
    first coordinate that is a NaN or an infinity. *)
Fixpoint CopyXYs (data : list XY) : error + list XY :=
  match data with
  | [] => inr []
  | p :: rest =>
      match CheckFloats (X p), CheckFloats (Y p) with
      | Some e, _ => inl e
      | None, Some e => inl e
      | None, None =>
          match CopyXYs rest with
          | inl e => inl e
          | inr cpy => inr (p :: cpy)
          end
      end
  end.

(** gonum's [plotter.NewLine]: [(nil, err)] when the copy fails, else a
    line over the copy in the default style. *)
Definition NewLine (xys : list XY) : error + Line :=
  match CopyXYs xys with
  | inl e => inl e
  | inr data => inr (mkLine data color.Black)
  end.

(** [line, _ := plotter.NewLine(pts); line.Color = c]: the error is
    dropped, and the assignment through a [nil] line panics. *)
Definition NewLine_colored (pts : list XY) (c : color.RGBA) : option Line :=
  match NewLine pts with
  | inl _ => None
  | inr line => Some (mkLine (XYs line) c)
  end.

(** ** The world *)

(** [StockData], one element of the provider's answer. *)
Record StockData := mkStockData {
  Symbol : string;
  Close : float64;
  Date : string
}.

(** What a file holds: raw bytes, or the image of a chart rendered at a
    given size. *)
Inductive content :=
| Bytes (b : string)
| Image (p : Plot) (width height : float64).

(** [ProcessOutcome]: how the child process ended and what it wrote. *)
Record ProcessOutcome := mkOutcome {
  exitStatus : Z;
  capturedStdout : string;
  capturedStderr : string
}.

(** What [cmd.Run()] met: the process could not be started, or it ran to
    its end. *)
Inductive RunResult :=
| StartFailed (e : error)
| Exited (o : ProcessOutcome).

(** The operands of a call to [log.Println] or [log.Printf]. *)
Inductive LogArg :=
| LStr (s : string)
| LInt (n : Z)
| LErr (e : error)
| LFloats (fs : list float64).

Inductive LogCall :=
| Println (args : list LogArg)
| Printf (format : string) (args : list LogArg).

(** The calls that leave the program, in the order they are made. *)
Inductive Event :=
| EvFetch (symbol : string) (months : Z)
| EvLog (c : LogCall)
| EvTempFile (name : string)
| EvWrite (name : string)
| EvClose (name : string)
| EvRun (name : string) (stdin : string) (r : RunResult)
| EvRemove (name : string)
| EvSave (p : Plot) (width height : float64) (file : string)
| EvSetContent (image : string).

Record World := mkWorld {
  files : gmap string content;
  events : list Event
}.

(** What the environment answers during one run of the handler: the
    provider, the temporary directory, the disk, the predictor. *)
Record OS := mkOS {
  fetch_result : string -> Z -> error + list StockData;
  TempFile_result : error + string;
  Write_result : option error;
  Run_result : string -> string -> RunResult;
  Save_result : option error
}.

Definition emit (e : Event) (w : World) : World :=
  mkWorld (files w) (events w ++ [e]).

Definition log_Println (args : list LogArg) (w : World) : World :=
  emit (EvLog (Println args)) w.

Definition log_Printf (format : string) (args : list LogArg) (w : World)
  : World :=
  emit (EvLog (Printf format args)) w.

(** [ioutil.TempFile] with the pattern [arima_predict_*.exe] in the default
    directory: on success a new, empty file whose name the system chose. *)
Definition ioutil_TempFile (os : OS) (w : World) : (error + string) * World :=
  match TempFile_result os with
  | inl e => (inl e, w)
  | inr name =>
      (inr name, mkWorld (<[name := Bytes EmptyString]> (files w))
                         (events w ++ [EvTempFile name]))
  end.

(** [tempExe.Write(b)] *)
Definition File_Write (os : OS) (name b : string) (w : World)
  : option error * World :=
  match Write_result os with
  | Some e => (Some e, emit (EvWrite name) w)
  | None =>
      (None, mkWorld (<[name := Bytes b]> (files w))
                     (events w ++ [EvWrite name]))
  end.

(** [tempExe.Close()], its result unused. *)
Definition File_Close (name : string) (w : World) : World :=
  emit (EvClose name) w.

(** [os.Remove(name)], its result unused: the model takes the removal of
    a file the program has closed to succeed. *)
Definition os_Remove (name : string) (w : World) : World :=
  mkWorld (delete name (files w)) (events w ++ [EvRemove name]).

(** [cmd.Run()] for [cmd := exec.Command(name)] with [cmd.Stdin] a reader
    over [stdin] and [cmd.Stdout], [cmd.Stderr] two buffers: [Run] hands the
    whole of [stdin] to the child, closes the stream, waits for the child
    and leaves what it wrote in the buffers. [Run] returns the error of
    the start if the process could not be started, and an [*ExitError] if
    it ended with a status other than zero. What [Run] does on the pipes
    of the child is inside [os/exec] and is not told apart here: [Run] is
    one call. The child is taken to leave the files of the world alone. *)
Definition Run_err (r : RunResult) : option error :=
  match r with
  | StartFailed e => Some e
  | Exited o =>
      if exitStatus o =? 0 then None else Some (ExitError (exitStatus o))
  end.

Definition Run_stdout (r : RunResult) : string :=
  match r with StartFailed _ => EmptyString | Exited o => capturedStdout o end.

Definition Run_stderr (r : RunResult) : string :=
  match r with StartFailed _ => EmptyString | Exited o => capturedStderr o end.

Definition cmd_Run (os : OS) (name stdin : string) (w : World)
  : RunResult * World :=
  let r := Run_result os name stdin in
  (r, emit (EvRun name stdin r) w).

(** The writing half of [p.Save(width, height, file)]: the image of the
    chart is written, or the write fails and the file is left as it was. *)
Definition Plot_write (os : OS) (p : Plot) (width height : float64)
    (file : string) (w : World) : option error * World :=
  match Save_result os with
  | Some e => (Some e, emit (EvSave p width height file) w)
  | None =>
      (None, mkWorld (<[file := Image p width height]> (files w))
                     (events w ++ [EvSave p width height file]))
  end.

(** [p.Save(width, height, file)]. gonum first draws the chart on a
    canvas and only then creates and writes the file. The drawing does not
    return on every chart: the default ticks panic ("illegal range") on an
    axis whose range stays empty, and on some ranges they do not end.
    [draws p] says that the drawing of [p] returns; [None]: [Save] does not
    return, and nothing has been written. *)
Definition Plot_Save (draws : Plot -> bool) (os : OS) (p : Plot)
    (width height : float64) (file : string) (w : World)
  : option (option error * World) :=
  if draws p then Some (Plot_write os p width height file w) else None.

(** [fetchStockData(symbol, months)]: the request to the provider and the
    decoding of its answer, taken as one call to the environment. *)
Definition fetchStockData (os : OS) (symbol : string) (months : Z)
    (w : World) : (error + list StockData) * World :=
  (fetch_result os symbol months, emit (EvFetch symbol months) w).

(** ** The program *)

Definition dquote : string := String "034"%char EmptyString.
Definition newline : string := String "010"%char EmptyString.

(** The text [encoding/json] reports for a value it cannot encode. *)
Definition unsupported_text (f : float64) : string :=
  if PrimFloat.is_nan f then "NaN"
  else if PrimFloat.ltb f 0%float then "-Inf" else "+Inf".

Section program.

(** [arimaPredictExe]: the bytes of [assets/arima_predict.exe], embedded
    at build time. *)
Variable arimaPredictExe : string.

(** The number encoder of [encoding/json] on a finite [float64]
    (the shortest decimal text that reads back as the same value). *)
Variable encodeFloat : float64 -> string.

(** [json.Unmarshal(b, &predictions)] for [predictions] a [[]float64]:
    the decoder's error, or the decoded slice. *)
Variable json_Unmarshal : string -> error + list float64.

(** Whether gonum's drawing of a chart returns (see [Plot_Save]). *)
Variable draws : Plot -> bool.

(** [json.Marshal] of the map with the one key [prices]: the key, then
    the values in the order of the slice; an error at the first value
    that is a NaN or an infinity. [prices] is a slice that is not [nil],
    as every slice the handler passes is, being made by [make]; the code
    would write a [nil] slice as [null], which a list cannot stand
    for. *)
Definition json_Marshal (prices : list float64) : error + string :=
  match List.find (fun f => negb (is_finite f)) prices with
  | Some f => inl (UnsupportedValueError (unsupported_text f))
  | None =>
      inr ("{" +:+ dquote +:+ "prices" +:+ dquote +:+ ":["
           +:+ String.concat "," (List.map encodeFloat prices) +:+ "]}")
  end.

(** [callPythonARIMA] from the statement after
    [defer os.Remove(tempExe.Name())] to its last [return]. *)
Definition callPythonARIMA_staged (os : OS) (jsonData name : string)
    (w : World) : (error + list float64) * World :=
  let '(werr, w) := File_Write os name arimaPredictExe w in
  match werr with
  | Some err => (inl err, w)
  | None =>
      let w := File_Close name w in
      let '(r, w) := cmd_Run os name jsonData w in
      match Run_err r with
      | Some err =>
          let w := log_Println [LStr "Error calling ARIMA prediction:";
                                LErr err; LStr "Stderr:";
                                LStr (Run_stderr r)] w in
          (inl err, w)
      | None =>
          match json_Unmarshal (Run_stdout r) with
          | inl err => (inl err, w)
          | inr predictions => (inr predictions, w)
          end
      end
  end.

(** [callPythonARIMA(prices)]. The deferred [os.Remove] runs when the
    function returns, on whichever path, once the [defer] statement has
    been reached. *)
Definition callPythonARIMA (os : OS) (prices : list float64) (w : World)
  : (error + list float64) * World :=
  match json_Marshal prices with
  | inl err => (inl err, w)
  | inr jsonData =>
      let '(t, w) := ioutil_TempFile os w in
      match t with
      | inl err => (inl err, w)
      | inr name =>
          let '(res, w) := callPythonARIMA_staged os jsonData name w in
          (res, os_Remove name w)
      end
  end.

(** [plotData(prices, predictions, symbol)]: [None] when the call does
    not return (a panic of the code, or [Save] not returning), else the
    returned error and the world after the call. *)
Definition plotData (os : OS) (prices predictions : list float64)
    (symbol : string) (w : World) : option (option error * World) :=
  let p := plot_New in
  let p := set_Title ("Stock Prices and Predictions for " +:+ symbol) p in
  let p := set_X_Label "Days" p in
  let p := set_Y_Label "Price" p in
  stockPoints ← stockPoints prices;
  predPoints ← predPoints prices predictions;
  line ← NewLine_colored stockPoints (color.mkRGBA 255 0 0 255);
  predLine ← NewLine_colored predPoints (color.mkRGBA 0 255 0 255);
  let p := Plot_Add [line; predLine] p in
  let p := Legend_Add "Stock" line p in
  let p := Legend_Add "Prediction" predLine p in
  Plot_Save draws os p (8 * vg_Inch)%float (4 * vg_Inch)%float "plot.png" w.

(** The loop of the handler that copies the closing prices:
<<
prices := make([]float64, len(data))
for i, d := range data { prices[i] = d.Close }
>> *)
Definition prices_body (data : list StockData) (i : Z)
    (prices : list float64) : option (list float64) :=
  d ← index data i;
  update prices i (fun _ => Close d).

Definition prices_of (data : list StockData) : option (list float64) :=
  for_range 0 (len data) (prices_body data)
    (replicate (Z.to_nat (len data)) 0%float).

(** The handler of the "Fetch Data" button, the function literal given
    to [widget.NewButton] in [main]; [symbol] is [stockEntry.Text].
    [None]: the handler does not return. *)
Definition fetchButton (os : OS) (symbol : string) (w : World)
  : option World :=
  let '(res, w) := fetchStockData os symbol 12 w in
  match res with
  | inl err => Some (log_Println [LStr "Error fetching data:"; LErr err] w)
  | inr data =>
      let w := log_Printf ("Fetched %d data points for symbol: %s" +:+ newline)
                 [LInt (len data); LStr symbol] w in
      if len data =? 0 then
        Some (log_Println [LStr "No data returned for symbol:"; LStr symbol] w)
      else
        prices ← prices_of data;
        let w := log_Printf ("Prices for %s: %v" +:+ newline)
                   [LStr symbol; LFloats prices] w in
        if len prices <? 2 then
          Some (log_Println [LStr "Not enough data points for predictions."] w)
        else
          let '(res, w) := callPythonARIMA os prices w in
          match res with
          | inl err =>
              Some (log_Println [LStr "Error calling ARIMA prediction:";
                                 LErr err] w)
          | inr predictions =>
              '(perr, w) ← plotData os prices predictions symbol w;
              match perr with
              | Some err =>
                  Some (log_Println [LStr "Error plotting data:"; LErr err] w)
              | None => Some (emit (EvSetContent "plot.png") w)
              end
          end
  end.

End program.

(** ** Reading a trace *)

Definition is_Run (e : Event) : bool :=
  match e with EvRun _ _ _ => true | _ => false end.

Definition is_TempFile (e : Event) : bool :=
  match e with EvTempFile _ => true | _ => false end.

Definition is_Save (e : Event) : bool :=
  match e with EvSave _ _ _ _ => true | _ => false end.

Definition is_Remove (name : string) (e : Event) : bool :=
  match e with EvRemove n => bool_decide (n = name) | _ => false end.

(** The standard inputs given to child processes, one per [Run]. *)
Definition stdins (evs : list Event) : list string :=
  omap (fun e => match e with EvRun _ stdin _ => Some stdin | _ => None end)
       evs.

(** The charts given to [Save]. *)
Definition saved (evs : list Event) : list Plot :=
  omap (fun e => match e with EvSave p _ _ _ => Some p | _ => None end) evs.

(** The two messages with which the handler turns down a series that is
    too short. *)
Definition insufficient_data (e : Event) : bool :=
  match e with
  | EvLog (Println (LStr m :: _)) =>
      bool_decide (m = "No data returned for symbol:")
      || bool_decide (m = "Not enough data points for predictions.")
  | _ => false
  end.

(** ** What the statements are written with *)

(** The events of a run that took the world from [w] to [w']. *)
Definition since (w w' : World) : list Event :=
  drop (length (events w)) (events w').

(** Go's [s[lo:hi]]. *)
Definition slice {A} (lo hi : nat) (s : list A) : list A :=
  take (hi - lo) (drop lo s).

(** An error text carries [text]. *)
Definition carries (e : error) (text : string) : Prop :=
  contains text (Error e) = true.

(** In [evs] every event picked by [P] comes before every one picked by [Q]. *)
Definition all_before (P Q : Event -> bool) (evs : list Event) : Prop :=
  forall (i j : nat) (a b : Event),
    evs !! i = Some a -> P a = true ->
    evs !! j = Some b -> Q b = true -> (i < j)%nat.

(** The request as [json.Marshal] writes it when every price is finite. *)
Definition payload (encodeFloat : float64 -> string) (prices : list float64)
  : string :=
  "{" +:+ dquote +:+ "prices" +:+ dquote +:+ ":["
  +:+ String.concat "," (List.map encodeFloat prices) +:+ "]}".

(** The line [callPythonARIMA] logs when [Run] returns an error. *)
Definition run_failure_log (r : RunResult) : list Event :=
  match Run_err r with
  | Some err => [EvLog (Println [LStr "Error calling ARIMA prediction:";
                                 LErr err; LStr "Stderr:";
                                 LStr (Run_stderr r)])]
  | None => []
  end.

(** The events of one call of [callPythonARIMA], path by path. *)
Definition arima_trace (encodeFloat : float64 -> string) (os : OS)
    (prices : list float64) : list Event :=
  match List.find (fun f => negb (is_finite f)) prices, TempFile_result os with
  | Some _, _ => []
  | None, inl _ => []
  | None, inr name =>
      match Write_result os with
      | Some _ => [EvTempFile name; EvWrite name; EvRemove name]
      | None =>
          let r := Run_result os name (payload encodeFloat prices) in
          [EvTempFile name; EvWrite name; EvClose name;
           EvRun name (payload encodeFloat prices) r]
          ++ run_failure_log r ++ [EvRemove name]
      end
  end.

Definition red : color.RGBA := color.mkRGBA 255 0 0 255.
Definition green : color.RGBA := color.mkRGBA 0 255 0 255.

(** The chart [plotData] hands to [Save] when both lines can be built. *)
Definition chart (prices predictions : list float64) (symbol : string)
  : Plot :=
  let line := mkLine (points_from 0 (trailing prices)) red in
  let predLine :=
    mkLine (points_from (length (trailing prices)) predictions) green in
  mkPlot ("Stock Prices and Predictions for " +:+ symbol) "Days" "Price"
         [line; predLine] [("Stock", line); ("Prediction", predLine)].

(** What the handler does before it calls [callPythonARIMA]: the fetch
    and the two lines it logs. *)
Definition handler_prefix (symbol : string) (data : list StockData)
  : list Event :=
  [EvFetch symbol 12;
   EvLog (Printf ("Fetched %d data points for symbol: %s" +:+ newline)
                 [LInt (len data); LStr symbol]);
   EvLog (Printf ("Prices for %s: %v" +:+ newline)
                 [LStr symbol; LFloats (List.map Close data)])].

(** ** Instances for the examples *)

(** The number encoder on the floats that hold a whole number below
    [1e21], the negative zero aside: there the shortest text is the
    decimal numeral. The examples use no other value; elsewhere the text
    is left empty. *)
Definition encodeFloat_whole (f : float64) : string :=
  match whole_of_float f with
  | Some n => string_of_Z n
  | None => EmptyString
  end.

(** The answers of [json.Unmarshal] into a [[]float64] on the outputs the
    examples use; any other text is answered as the empty input is. *)
Definition json_Unmarshal_examples (b : string) : error + list float64 :=
  if String.eqb b "[105,106]" then inr [105; 106]%float
  else if String.eqb b "[]" then inr []
  else if String.eqb b "not json"
  then inl (SyntaxError
              "invalid character 'o' in literal null (expecting 'u')" 2)
  else inl (SyntaxError "unexpected end of JSON input" 0).

(** [math.Max(x, y)], as [math_Min]. *)
Definition math_Max (x y : float64) : float64 :=
  if PrimFloat.is_nan x || PrimFloat.is_nan y then PrimFloat.nan
  else if PrimFloat.eqb x 0%float && PrimFloat.eqb y 0%float
       then (if PrimFloat.get_sign x then y else x)
       else if PrimFloat.ltb x y then y else x.

(** The range of an axis after [p.Add]: from [+Inf], [-Inf] of [plot.New]
    the minimum and the maximum over the values of all the lines. *)
Definition axis_range (vals : list float64) : float64 * float64 :=
  fold_left (fun r v => (math_Min r.1 v, math_Max r.2 v)) vals
            (PrimFloat.infinity, PrimFloat.neg_infinity).

(** gonum's [Axis.sanitizeRange]: infinite bounds become 0, the bounds
    are put in order, and equal bounds are moved apart by one. *)
Definition sanitizeRange (r : float64 * float64) : float64 * float64 :=
  let lo := if PrimFloat.is_infinity r.1 then 0%float else r.1 in
  let hi := if PrimFloat.is_infinity r.2 then 0%float else r.2 in
  let '(lo, hi) := if PrimFloat.ltb hi lo then (hi, lo) else (lo, hi) in
  if PrimFloat.eqb lo hi then ((lo - 1)%float, (hi + 1)%float) else (lo, hi).

(** A drawing that stops where gonum's [DefaultTicks] panics with
    "illegal range": on an axis whose maximum, after [sanitizeRange], is
    not above its minimum, as when every value is the same number too
    large for one more or one less to differ from it. On every other
    chart it returns. *)
Definition draws_ticks (p : Plot) : bool :=
  let pts := concat (List.map XYs (plotters p)) in
  let rx := sanitizeRange (axis_range (List.map X pts)) in
  let ry := sanitizeRange (axis_range (List.map Y pts)) in
  PrimFloat.ltb rx.1 rx.2 && PrimFloat.ltb ry.1 ry.2.

(** A year of five closing prices. *)
Definition data5 : list StockData :=
  [mkStockData "AAPL" 100 "2024-01-02"; mkStockData "AAPL" 101 "2024-01-03";
   mkStockData "AAPL" 102 "2024-01-04"; mkStockData "AAPL" 103 "2024-01-05";
   mkStockData "AAPL" 104 "2024-01-08"]%float.

(** A series of one closing price. *)
Definition data1 : list StockData :=
  [mkStockData "AAPL" 100%float "2024-01-02"].

Definition prices5 : list float64 := [100; 101; 102; 103; 104]%float.

Definition temp_name : string := "/tmp/arima_predict_123456.exe".

(** An environment in which everything but the predictor is fixed: the
    provider answers [data], staging and saving succeed, and the predictor
    ends as [r] says. *)
Definition os_with (data : list StockData) (r : RunResult) : OS :=
  mkOS (fun _ _ => inr data) (inr temp_name) None (fun _ _ => r) None.

(** The same with a disk on which the chart cannot be written. *)
Definition os_read_only (data : list StockData) (r : RunResult) : OS :=
  mkOS (fun _ _ => inr data) (inr temp_name) None (fun _ _ => r)
       (Some (PathError "open" "plot.png" "permission denied")).

(** The same with a temporary directory that cannot be written. *)
Definition os_no_temp (data : list StockData) (r : RunResult) : OS :=
  mkOS (fun _ _ => inr data)
       (inl (PathError "open" temp_name "permission denied"))
       None (fun _ _ => r) None.

Definition predictor_ok : RunResult :=
  Exited (mkOutcome 0 "[105,106]" EmptyString).

Definition predictor_failed : RunResult :=
  Exited (mkOutcome 1 EmptyString "model failed").

Definition predictor_not_json : RunResult :=
  Exited (mkOutcome 0 "not json" EmptyString).

Definition world0 : World := mkWorld ∅ [].

Definition exe0 : string := "MZ".

(** ** The provider and the taps *)

(** [apiKey] and [apiURL]; [fmt.Sprintf(apiURL, symbol, startDate)] puts the
    two strings in the place of the two [%s], as they are. *)
Definition apiKey : string := "YOUR_API_KEY".

Definition apiURL (symbol startDate : string) : string :=
  "https://api.tiingo.com/tiingo/daily/" +:+ symbol
  +:+ "/prices?startDate=" +:+ startDate +:+ "&token=" +:+ apiKey.

(** [*http.Response], as far as [fetchStockData] goes: its status, which
    the function never reads, and what [ioutil.ReadAll(resp.Body)] gives. *)
Record Response := mkResponse {
  StatusCode : Z;
  Body : error + string
}.

(** What the network and the clock answer during one fetch:
    [time.Now().AddDate(0, -months, 0).Format("2006-01-02")] and
    [http.Get(url)]. *)
Record Net := mkNet {
  startDate_of : Z -> string;
  Get_result : string -> error + Response
}.

(** The calls [fetchStockData] makes, in their order. *)
Inductive NetEvent :=
| NetGet (url : string)
| NetReadAll
| NetClose.

Definition is_NetClose (e : NetEvent) : bool :=
  match e with NetClose => true | _ => false end.

(** The body of [fetchStockData(symbol, months)], with the decoder of
    [json.Unmarshal(body, &stockData)] as [decode]. The deferred
    [resp.Body.Close()] runs on every return after the [defer]. *)
Definition fetchStockData_body (decode : string -> error + list StockData)
    (net : Net) (symbol : string) (months : Z)
  : (error + list StockData) * list NetEvent :=
  let startDate := startDate_of net months in
  let url := apiURL symbol startDate in
  let evs := [NetGet url] in
  match Get_result net url with
  | inl err => (inl err, evs)
  | inr resp =>
      let '(res, evs) :=
        let evs := evs ++ [NetReadAll] in
        match Body resp with
        | inl err => (inl err, evs)
        | inr body =>
            match decode body with
            | inl err => (inl err, evs)
            | inr stockData => (inr stockData, evs)
            end
        end in
      (res, evs ++ [NetClose])
  end.

(** [myWindow.ShowAndRun()] as far as the button goes: the taps are
    handled one after the other, each with the text of the entry at that
    time and the answers the environment gives during it. A tap that does
    not return ends the sequence. *)
Fixpoint run_taps (exe : string) (enc : float64 -> string)
    (dec : string -> error + list float64) (draws : Plot -> bool)
    (taps : list (OS * string)) (w : World) : option World :=
  match taps with
  | [] => Some w
  | (os, symbol) :: rest =>
      match fetchButton exe enc dec draws os symbol w with
      | Some w1 => run_taps exe enc dec draws rest w1
      | None => None
      end
  end.

(** [ioutil.TempFile] made the file [name]. *)
Definition is_Staged (name : string) (e : Event) : bool :=
  match e with EvTempFile n => bool_decide (n = name) | _ => false end.

Definition is_SetContent (e : Event) : bool :=
  match e with EvSetContent _ => true | _ => false end.

Definition quoted (s : string) : string := dquote +:+ s +:+ dquote.

Definition body1 : string :=
  "[{" +:+ quoted "ticker" +:+ ":" +:+ quoted "AAPL" +:+ ","
  +:+ quoted "close" +:+ ":100," +:+ quoted "date" +:+ ":"
  +:+ quoted "2024-01-02" +:+ "}]".

(** A provider that answers one day of one symbol, and one that cannot be
    reached. *)
Definition net_ok : Net :=
  mkNet (fun _ => "2024-01-02") (fun _ => inr (mkResponse 200 (inr body1))).

Definition net_down : Net :=
  mkNet (fun _ => "2024-01-02")
        (fun _ => inl (OtherError "dial tcp: no route to host")).

(** The answers of [json.Unmarshal] into a [[]StockData] on the one body
    the examples use; any other text is answered as the empty input is. *)
Definition decode_examples (b : string) : error + list StockData :=
  if String.eqb b body1 then inr data1
  else inl (SyntaxError "unexpected end of JSON input" 0).

(** Ninety prices, 0 to 89. *)
Definition prices90 : list float64 :=
  List.map (fun n => float64_of_int (Z.of_nat n)) (seq 0 90).

(** An environment whose disk is full when the executable is written. *)
Definition os_disk_full : OS :=
  mkOS (fun _ _ => inr data5) (inr temp_name)
       (Some (PathError "write" temp_name "no space left on device"))
       (fun _ _ => predictor_ok) None.

Definition start_denied : RunResult :=
  StartFailed (PathError "fork/exec" temp_name "permission denied").

(** ** Facts about slices and the filling loops *)

Section slices.
Context {A : Type}.
Implicit Types (s : list A) (i : Z) (k : nat).

Lemma index_Some s k a :
  s !! k = Some a -> index s (Z.of_nat k) = Some a.
Proof.
  intros Hk. unfold index, len.
  pose proof (lookup_lt_Some _ _ _ Hk) as Hlt.
  replace ((0 <=? Z.of_nat k) && (Z.of_nat k <? Z.of_nat (length s)))
    with true by (symmetry; apply andb_true_iff; split; lia).
  by rewrite Nat2Z.id.
Qed.

Lemma update_Some s k a (f : A -> A) :
  s !! k = Some a ->
  update s (Z.of_nat k) f = Some (<[k := f a]> s).
Proof.
  intros Hk. unfold update.
  rewrite (index_Some _ _ _ Hk). by rewrite Nat2Z.id.
Qed.
End slices.

(** A loop whose [k]-th iteration stores [vals !! k] in slot [k] of a
    slice of [length vals] zero values ends with the slice [vals]. *)
Lemma for_loop_fill {A} (zero : A)
    (body : Z -> list A -> option (list A)) (lo : Z) (vals : list A) :
  (forall (k : nat) (v : A) (pts : list A),
      vals !! k = Some v -> length pts = length vals ->
      body (lo + Z.of_nat k) pts = Some (<[k := v]> pts)) ->
  for_loop (length vals) lo body (replicate (length vals) zero)
  = Some vals.
Proof.
  intros Hbody.
  assert (Hgen : forall (rest done : list A),
             vals = done ++ rest ->
             for_loop (length rest) (lo + Z.of_nat (length done)) body
               (done ++ replicate (length rest) zero)
             = Some (done ++ rest)).
  { induction rest as [|v rest IH]; intros done Hv; simpl.
    - reflexivity.
    - rewrite (Hbody (length done) v).
      + replace (<[length done:=v]> (done ++ zero :: replicate (length rest) zero))
          with ((done ++ [v]) ++ replicate (length rest) zero).
        2:{ rewrite insert_app_r_alt by lia. rewrite Nat.sub_diag.
            simpl. by rewrite <- app_assoc. }
        replace (lo + Z.of_nat (length done) + 1)
          with (lo + Z.of_nat (length (done ++ [v])))
          by (rewrite length_app; simpl; lia).
        rewrite IH; rewrite <- app_assoc; [done | by simpl].
      + subst vals. by rewrite list_lookup_middle.
      + subst vals. rewrite !length_app. simpl. by rewrite length_replicate. }
  specialize (Hgen vals [] eq_refl). simpl in Hgen.
  by rewrite Z.add_0_r in Hgen.
Qed.

(** Through the floats or on the integers, the minimum is the same for
    every length up to 4096. *)
Lemma min90_float_agrees (n : Z) :
  0 <= n <= 4096 -> min90_float n = Some (min90 n).
Proof.
  intros Hn.
  assert (Hall : forallb
                   (fun k => match min90_float (Z.of_nat k) with
                             | Some m => m =? min90 (Z.of_nat k)
                             | None => false
                             end)
                   (seq 0 4097) = true) by (vm_compute; reflexivity).
  rewrite forallb_forall in Hall.
  specialize (Hall (Z.to_nat n)). rewrite Z2Nat.id in Hall by lia.
  destruct (min90_float n) as [m|].
  - f_equal. apply Z.eqb_eq, Hall, in_seq. lia.
  - exfalso. apply diff_false_true, Hall, in_seq. lia.
Qed.

Lemma startIndex_nat (prices : list float64) :
  startIndex prices = Z.of_nat (length prices - 90).
Proof. unfold startIndex, min90, len. lia. Qed.

Lemma length_trailing (prices : list float64) :
  length (trailing prices) = Nat.min 90 (length prices).
Proof. unfold trailing. rewrite length_drop. lia. Qed.

Lemma stockPoints_eq (prices : list float64) :
  stockPoints prices = Some (points_from 0 (trailing prices)).
Proof.
  unfold stockPoints, for_range, make_XYs.
  set (vals := points_from 0 (trailing prices)).
  assert (Hlen : length vals = length (trailing prices))
    by (unfold vals, points_from; by rewrite length_imap).
  pose proof (length_trailing prices) as Htr.
  rewrite startIndex_nat.
  replace (Z.to_nat (len prices - Z.of_nat (length prices - 90)))
    with (length vals) by (unfold len; lia).
  apply for_loop_fill.
  intros k v pts Hv Hpts.
  unfold vals, points_from in Hv. rewrite list_lookup_imap in Hv.
  destruct (trailing prices !! k) as [y|] eqn:Hy; simpl in Hv; simplify_eq.
  unfold trailing in Hy. rewrite lookup_drop in Hy.
  assert (Hk : (k < length pts)%nat).
  { rewrite Hpts, Hlen. unfold trailing. rewrite length_drop.
    apply lookup_lt_Some in Hy. lia. }
  destruct (lookup_lt_is_Some_2 pts k Hk) as [p Hp].
  unfold stockPoints_body.
  replace (Z.of_nat (length prices - 90) + Z.of_nat k
           - Z.of_nat (length prices - 90)) with (Z.of_nat k) by lia.
  rewrite (update_Some _ _ _ _ Hp). simpl.
  replace (Z.of_nat (length prices - 90) + Z.of_nat k)
    with (Z.of_nat (length prices - 90 + k)) by lia.
  rewrite (index_Some _ _ _ Hy). simpl.
  rewrite (update_Some _ k (set_X (float64_of_int (Z.of_nat k)) p)).
  2:{ apply list_lookup_insert_eq. done. }
  by rewrite list_insert_insert_eq.
Qed.

Lemma predPoints_eq (prices predictions : list float64) :
  predPoints prices predictions
  = Some (points_from (length (trailing prices)) predictions).
Proof.
  unfold predPoints, for_range, make_XYs.
  set (vals := points_from (length (trailing prices)) predictions).
  assert (Hlen : length vals = length predictions)
    by (unfold vals, points_from; by rewrite length_imap).
  pose proof (length_trailing prices) as Htr.
  rewrite startIndex_nat.
  replace (Z.to_nat (len predictions - 0)) with (length vals)
    by (unfold len; lia).
  replace (Z.to_nat (len predictions)) with (length vals)
    by (unfold len; lia).
  apply for_loop_fill.
  intros k v pts Hv Hpts.
  unfold vals, points_from in Hv. rewrite list_lookup_imap in Hv.
  destruct (predictions !! k) as [y|] eqn:Hy; simpl in Hv; simplify_eq.
  assert (Hk : (k < length pts)%nat).
  { rewrite Hpts, Hlen. by apply lookup_lt_Some in Hy. }
  destruct (lookup_lt_is_Some_2 pts k Hk) as [p Hp].
  replace (0 + Z.of_nat k) with (Z.of_nat k) by lia.
  unfold predPoints_body.
  rewrite (update_Some _ _ _ _ Hp). simpl.
  rewrite (index_Some _ _ _ Hy). simpl.
  rewrite (update_Some _ k
             (set_X (float64_of_int
                       (len prices - Z.of_nat (length prices - 90)
                        + Z.of_nat k)) p)).
  2:{ apply list_lookup_insert_eq. done. }
  rewrite list_insert_insert_eq. unfold set_Y, set_X. simpl.
  replace (len prices - Z.of_nat (length prices - 90) + Z.of_nat k)
    with (Z.of_nat (length (trailing prices) + k)); [done|].
  unfold len. lia.
Qed.

(** ** Building the chart *)

Lemma CopyXYs_inr (pts cpy : list XY) :
  CopyXYs pts = inr cpy -> cpy = pts.
Proof.
  revert cpy. induction pts as [|p pts IH]; intros cpy; simpl.
  - by intros [= <-].
  - destruct (CheckFloats (X p)); [discriminate|].
    destruct (CheckFloats (Y p)); [discriminate|].
    destruct (CopyXYs pts) as [e|c]; [discriminate|].
    intros [= <-]. by rewrite (IH c).
Qed.

Lemma CheckFloats_finite (f : float64) :
  is_finite f = true -> CheckFloats f = None.
Proof.
  unfold is_finite, CheckFloats.
  destruct (PrimFloat.is_nan f), (PrimFloat.is_infinity f); done.
Qed.

Lemma CopyXYs_finite (pts : list XY) :
  Forall (fun p => finite_XY p = true) pts -> CopyXYs pts = inr pts.
Proof.
  induction 1 as [|p pts Hp _ IH]; simpl; [done|].
  apply andb_true_iff in Hp as [HX HY].
  by rewrite (CheckFloats_finite _ HX), (CheckFloats_finite _ HY), IH.
Qed.

Lemma NewLine_colored_Some (pts : list XY) (c : color.RGBA) (l : Line) :
  NewLine_colored pts c = Some l -> l = mkLine pts c.
Proof.
  unfold NewLine_colored, NewLine.
  destruct (CopyXYs pts) as [e|cpy] eqn:Hc; [discriminate|].
  apply CopyXYs_inr in Hc as ->. by intros [= <-].
Qed.

Lemma NewLine_colored_finite (pts : list XY) (c : color.RGBA) :
  Forall (fun p => finite_XY p = true) pts ->
  NewLine_colored pts c = Some (mkLine pts c).
Proof.
  intros Hfin. unfold NewLine_colored, NewLine.
  by rewrite (CopyXYs_finite _ Hfin).
Qed.

(** The horizontal indices of a window, [0] to [89], are finite floats. *)
Lemma window_index_finite (k : nat) :
  (k < 90)%nat -> is_finite (float64_of_int (Z.of_nat k)) = true.
Proof.
  intros Hk.
  assert (Hall : forallb (fun k => is_finite (float64_of_int (Z.of_nat k)))
                         (seq 0 90) = true) by (vm_compute; reflexivity).
  rewrite forallb_forall in Hall. apply Hall.
  apply in_seq. lia.
Qed.

Lemma length_trailing_le (prices : list float64) :
  (length (trailing prices) <= 90)%nat.
Proof. unfold trailing. rewrite length_drop. lia. Qed.

Lemma stock_points_finite (prices : list float64) :
  Forall (fun f => is_finite f = true) prices ->
  Forall (fun p => finite_XY p = true) (points_from 0 (trailing prices)).
Proof.
  intros Hfin. apply Forall_lookup. intros k p Hp.
  unfold points_from in Hp. rewrite list_lookup_imap in Hp.
  destruct (trailing prices !! k) as [y|] eqn:Hy; simpl in Hp; [|done].
  injection Hp as <-.
  pose proof (lookup_lt_Some _ _ _ Hy) as Hk.
  pose proof (length_trailing_le prices) as Hle.
  unfold finite_XY. simpl. apply andb_true_iff. split.
  - apply window_index_finite. lia.
  - unfold trailing in Hy. rewrite lookup_drop in Hy.
    rewrite Forall_lookup in Hfin. by apply (Hfin _ _ Hy).
Qed.

(** The chart [plotData] builds is [chart]; what is left is [Save]. *)
Lemma plotData_lines (draws : Plot -> bool) (os : OS)
    (prices predictions : list float64) (symbol : string) (w : World) :
  plotData draws os prices predictions symbol w
  = match NewLine_colored (points_from 0 (trailing prices)) red,
          NewLine_colored
            (points_from (length (trailing prices)) predictions) green with
    | Some _, Some _ =>
        Plot_Save draws os (chart prices predictions symbol)
          (8 * vg_Inch)%float (4 * vg_Inch)%float "plot.png" w
    | _, _ => None
    end.
Proof.
  unfold plotData. rewrite stockPoints_eq, predPoints_eq. simpl.
  fold red. fold green.
  destruct (NewLine_colored (points_from 0 _) _) as [line|] eqn:Hl; [|done].
  destruct (NewLine_colored (points_from (length _) _) _) as [predLine|] eqn:Hp;
    [|done].
  apply NewLine_colored_Some in Hl as ->.
  apply NewLine_colored_Some in Hp as ->.
  done.
Qed.

Lemma plotData_Some_draws (draws : Plot -> bool) (os : OS)
    (prices predictions : list float64) (symbol : string) (w w' : World)
    (r : option error) :
  plotData draws os prices predictions symbol w = Some (r, w') ->
  draws (chart prices predictions symbol) = true.
Proof.
  rewrite plotData_lines.
  destruct (NewLine_colored _ _); [|discriminate].
  destruct (NewLine_colored _ _); [|discriminate].
  unfold Plot_Save. by destruct (draws _).
Qed.

Lemma plotData_Some (draws : Plot -> bool) (os : OS)
    (prices predictions : list float64) (symbol : string) (w w' : World)
    (r : option error) :
  plotData draws os prices predictions symbol w = Some (r, w') ->
  (r, w') = Plot_write os (chart prices predictions symbol)
              (8 * vg_Inch)%float (4 * vg_Inch)%float "plot.png" w.
Proof.
  rewrite plotData_lines.
  destruct (NewLine_colored _ _); [|discriminate].
  destruct (NewLine_colored _ _); [|discriminate].
  unfold Plot_Save. destruct (draws _); [|discriminate].
  by intros [= <-].
Qed.

Lemma plotData_finite (draws : Plot -> bool) (os : OS)
    (prices predictions : list float64) (symbol : string) (w : World) :
  Forall (fun p => finite_XY p = true) (points_from 0 (trailing prices)) ->
  Forall (fun p => finite_XY p = true)
         (points_from (length (trailing prices)) predictions) ->
  draws (chart prices predictions symbol) = true ->
  plotData draws os prices predictions symbol w
  = Some (Plot_write os (chart prices predictions symbol)
            (8 * vg_Inch)%float (4 * vg_Inch)%float "plot.png" w).
Proof.
  intros Hs Hp Hd. rewrite plotData_lines.
  rewrite (NewLine_colored_finite _ _ Hs), (NewLine_colored_finite _ _ Hp).
  unfold Plot_Save. by rewrite Hd.
Qed.

Lemma Plot_write_events (os : OS) (p : Plot) (width height : float64)
    (file : string) (w : World) :
  events (Plot_write os p width height file w).2
  = events w ++ [EvSave p width height file].
Proof. unfold Plot_write. by destruct (Save_result os). Qed.

Lemma prices_of_eq (data : list StockData) :
  prices_of data = Some (List.map Close data).
Proof.
  unfold prices_of, for_range.
  replace (Z.to_nat (len data - 0)) with (length (List.map Close data))
    by (rewrite length_map; unfold len; lia).
  replace (Z.to_nat (len data)) with (length (List.map Close data))
    by (rewrite length_map; unfold len; lia).
  apply for_loop_fill.
  intros k v pts Hv Hpts.
  change (List.map Close data) with (Close <$> data) in Hv.
  rewrite list_lookup_fmap in Hv.
  destruct (data !! k) as [d|] eqn:Hd; simpl in Hv; [|done].
  injection Hv as <-.
  replace (0 + Z.of_nat k) with (Z.of_nat k) by lia.
  unfold prices_body. rewrite (index_Some _ _ _ Hd). simpl.
  assert (Hk : (k < length pts)%nat).
  { rewrite Hpts, length_map. by apply lookup_lt_Some in Hd. }
  destruct (lookup_lt_is_Some_2 pts k Hk) as [p Hp].
  by rewrite (update_Some _ _ _ _ Hp).
Qed.

(** ** The events of a run *)

Lemma since_app (w w' : World) (new : list Event) :
  events w' = events w ++ new -> since w w' = new.
Proof. intros Hev. unfold since. rewrite Hev. by rewrite drop_app_length. Qed.

Lemma all_before_app (P Q : Event -> bool) (l1 l2 : list Event) :
  Forall (fun e => Q e = false) l1 ->
  Forall (fun e => P e = false) l2 ->
  all_before P Q (l1 ++ l2).
Proof.
  intros H1 H2 i j a b Ha HP Hb HQ.
  rewrite Forall_lookup in H1. rewrite Forall_lookup in H2.
  destruct (decide (i < length l1)%nat) as [Hi|Hi].
  - destruct (decide (j < length l1)%nat) as [Hj|Hj]; [|lia].
    rewrite lookup_app_l in Hb by done.
    specialize (H1 _ _ Hb). congruence.
  - rewrite lookup_app_r in Ha by lia.
    specialize (H2 _ _ Ha). congruence.
Qed.

Section program_facts.
Variable arimaPredictExe : string.
Variable encodeFloat : float64 -> string.
Variable json_Unmarshal : string -> error + list float64.
Variable draws : Plot -> bool.

Local Abbreviation invoke :=
  (callPythonARIMA arimaPredictExe encodeFloat json_Unmarshal).
Local Abbreviation handler :=
  (fetchButton arimaPredictExe encodeFloat json_Unmarshal draws).

Lemma json_Marshal_payload (prices : list float64) (jsonData : string) :
  json_Marshal encodeFloat prices = inr jsonData ->
  jsonData = payload encodeFloat prices
  /\ List.find (fun f => negb (is_finite f)) prices = None.
Proof.
  unfold json_Marshal.
  destruct (List.find _ prices); [discriminate|].
  intros [= <-]. done.
Qed.

Lemma json_Marshal_finite (prices : list float64) :
  Forall (fun f => is_finite f = true) prices ->
  json_Marshal encodeFloat prices = inr (payload encodeFloat prices).
Proof.
  intros Hfin. unfold json_Marshal.
  destruct (List.find _ prices) as [f|] eqn:Hf; [|done].
  apply List.find_some in Hf as [Hin Hneg].
  rewrite Forall_forall in Hfin.
  apply list_elem_of_In in Hin. rewrite (Hfin _ Hin) in Hneg. done.
Qed.

(** The events of [callPythonARIMA] are those of [arima_trace]. *)
Lemma callPythonARIMA_events (os : OS) (prices : list float64) (w : World) :
  events (invoke os prices w).2
  = events w ++ arima_trace encodeFloat os prices.
Proof.
  unfold callPythonARIMA, arima_trace, json_Marshal.
  destruct (List.find _ prices); simpl; [by rewrite app_nil_r|].
  unfold ioutil_TempFile.
  destruct (TempFile_result os) as [e|name]; simpl; [by rewrite app_nil_r|].
  unfold callPythonARIMA_staged, File_Write.
  destruct (Write_result os) as [e|]; simpl.
  - by rewrite <- !app_assoc.
  - unfold run_failure_log.
    fold (payload encodeFloat prices).
    destruct (Run_err _) as [e|]; simpl.
    + by rewrite <- !app_assoc.
    + destruct (json_Unmarshal _); simpl; by rewrite <- !app_assoc.
Qed.

Lemma callPythonARIMA_since (os : OS) (prices : list float64) (w : World) :
  since w (invoke os prices w).2 = arima_trace encodeFloat os prices.
Proof. apply since_app, callPythonARIMA_events. Qed.

(** The result of [callPythonARIMA], path by path. *)
Lemma callPythonARIMA_result (os : OS) (prices : list float64) (w : World) :
  (invoke os prices w).1
  = match json_Marshal encodeFloat prices, TempFile_result os with
    | inl e, _ => inl e
    | inr _, inl e => inl e
    | inr jsonData, inr name =>
        match Write_result os with
        | Some e => inl e
        | None =>
            let r := Run_result os name jsonData in
            match Run_err r with
            | Some e => inl e
            | None => json_Unmarshal (Run_stdout r)
            end
        end
    end.
Proof.
  unfold callPythonARIMA.
  destruct (json_Marshal encodeFloat prices) as [e|jsonData]; [done|].
  unfold ioutil_TempFile.
  destruct (TempFile_result os) as [e|name]; simpl; [done|].
  unfold callPythonARIMA_staged, File_Write.
  destruct (Write_result os) as [e|]; simpl; [done|].
  destruct (Run_err _) as [e|]; simpl; [done|].
  by destruct (json_Unmarshal _).
Qed.

(** The files after [callPythonARIMA]: the artifact is gone, every
    other file is as it was. *)
Lemma callPythonARIMA_files (os : OS) (prices : list float64) (w : World)
    (name : string) :
  TempFile_result os = inr name ->
  files (invoke os prices w).2 = files w
  \/ files (invoke os prices w).2 = delete name (files w).
Proof.
  intros Hname. unfold callPythonARIMA.
  destruct (json_Marshal encodeFloat prices) as [e|jsonData]; [by left|].
  unfold ioutil_TempFile. rewrite Hname. simpl.
  unfold callPythonARIMA_staged, File_Write.
  destruct (Write_result os) as [e|]; simpl.
  - right. by rewrite delete_insert_eq.
  - right.
    destruct (Run_err _) as [e|]; simpl;
      [|destruct (json_Unmarshal _); simpl];
      by rewrite !delete_insert_eq.
Qed.

End program_facts.

(** ** The handler *)

Section handler_facts.
Variable arimaPredictExe : string.
Variable encodeFloat : float64 -> string.
Variable json_Unmarshal : string -> error + list float64.
Variable draws : Plot -> bool.

Local Abbreviation invoke :=
  (callPythonARIMA arimaPredictExe encodeFloat json_Unmarshal).
Local Abbreviation handler :=
  (fetchButton arimaPredictExe encodeFloat json_Unmarshal draws).

(** The handler on a series of at least two prices: log, predict, plot. *)
Lemma handler_run (os : OS) (symbol : string) (w : World)
    (data : list StockData) :
  fetch_result os symbol 12 = inr data ->
  2 <= len data ->
  handler os symbol w
  = let prices := List.map Close data in
    let res := invoke os prices
                 (mkWorld (files w)
                          (events w ++ handler_prefix symbol data)) in
    match res.1 with
    | inl err =>
        Some (log_Println [LStr "Error calling ARIMA prediction:"; LErr err]
                          res.2)
    | inr predictions =>
        match plotData draws os prices predictions symbol res.2 with
        | None => None
        | Some (Some err, w4) =>
            Some (log_Println [LStr "Error plotting data:"; LErr err] w4)
        | Some (None, w4) => Some (emit (EvSetContent "plot.png") w4)
        end
    end.
Proof.
  intros Hfetch Hlen. unfold fetchButton, fetchStockData. rewrite Hfetch.
  replace (len data =? 0) with false by (symmetry; lia).
  rewrite prices_of_eq. simpl.
  replace (len (List.map Close data) <? 2) with false
    by (symmetry; unfold len in *; rewrite length_map; lia).
  unfold log_Printf, emit, handler_prefix. simpl.
  rewrite <- !app_assoc. simpl.
  destruct (invoke os (List.map Close data) _) as [[err|predictions] w3];
    simpl; [done|].
  destruct (plotData draws os _ predictions symbol w3) as [[[err|] w4]|]; done.
Qed.

(** The handler on a series of fewer than two prices stops at one of its
    two guards. *)
Lemma handler_short (os : OS) (symbol : string) (w : World)
    (data : list StockData) :
  fetch_result os symbol 12 = inr data ->
  len data < 2 ->
  exists msg : LogCall,
    handler os symbol w
    = Some (mkWorld (files w)
              (events w
               ++ [EvFetch symbol 12;
                   EvLog (Printf ("Fetched %d data points for symbol: %s"
                                  +:+ newline)
                                 [LInt (len data); LStr symbol])]
               ++ (if len data =? 0 then []
                   else [EvLog (Printf ("Prices for %s: %v" +:+ newline)
                                       [LStr symbol;
                                        LFloats (List.map Close data)])])
               ++ [EvLog msg]))
    /\ insufficient_data (EvLog msg) = true.
Proof.
  intros Hfetch Hlen. unfold fetchButton, fetchStockData. rewrite Hfetch.
  destruct (len data =? 0) eqn:H0.
  - eexists. split.
    + unfold log_Println, log_Printf, emit. simpl.
      rewrite <- !app_assoc. reflexivity.
    + reflexivity.
  - rewrite prices_of_eq. simpl.
    replace (len (List.map Close data) <? 2) with true
      by (symmetry; unfold len in *; rewrite length_map; lia).
    eexists. split.
    + unfold log_Println, log_Printf, emit. simpl.
      rewrite <- !app_assoc. reflexivity.
    + reflexivity.
Qed.

Lemma arima_trace_no_Save (os : OS) (prices : list float64) :
  Forall (fun e => is_Save e = false) (arima_trace encodeFloat os prices).
Proof.
  unfold arima_trace, run_failure_log.
  destruct (List.find _ prices); [constructor|].
  destruct (TempFile_result os) as [|name]; [constructor|].
  destruct (Write_result os); [repeat constructor|].
  destruct (Run_err _); repeat constructor.
Qed.

Lemma arima_trace_stdins (os : OS) (prices : list float64) :
  stdins (arima_trace encodeFloat os prices) = []
  \/ stdins (arima_trace encodeFloat os prices)
     = [payload encodeFloat prices].
Proof.
  unfold arima_trace, run_failure_log.
  destruct (List.find _ prices); [by left|].
  destruct (TempFile_result os) as [|name]; [by left|].
  destruct (Write_result os); [by left|].
  right. by destruct (Run_err _).
Qed.

(** The events of a run of the handler that reached the predictor: what
    came before the call, the call, and what the handler did with its
    result. Nothing is saved before the call has returned. *)
Lemma handler_events (os : OS) (symbol : string) (w w' : World)
    (data : list StockData) :
  fetch_result os symbol 12 = inr data ->
  2 <= len data ->
  handler os symbol w = Some w' ->
  exists tail : list Event,
    since w w'
    = (handler_prefix symbol data
       ++ arima_trace encodeFloat os (List.map Close data)) ++ tail
    /\ Forall (fun e => is_Run e = false) tail
    /\ Forall (fun e => is_TempFile e = false) tail
    /\ (forall name : string,
          Forall (fun e => is_Remove name e = false) tail)
    /\ (forall err : error,
          (invoke os (List.map Close data) w).1 = inl err ->
          Forall (fun e => is_Save e = false) tail
          /\ files w'
             = files (invoke os (List.map Close data)
                        (mkWorld (files w)
                           (events w ++ handler_prefix symbol data))).2).
Proof.
  intros Hfetch Hlen Hrun.
  rewrite (handler_run _ _ _ _ Hfetch Hlen) in Hrun. simpl in Hrun.
  set (w2 := mkWorld (files w) (events w ++ handler_prefix symbol data))
    in *.
  pose proof (callPythonARIMA_events arimaPredictExe encodeFloat
                json_Unmarshal os (List.map Close data) w2) as Hev.
  assert (Hres : (invoke os (List.map Close data) w2).1
                 = (invoke os (List.map Close data) w).1)
    by (by rewrite !callPythonARIMA_result).
  rewrite <- Hres.
  destruct (invoke os (List.map Close data) w2) as [res w3].
  simpl in *.
  destruct res as [err|predictions].
  - injection Hrun as <-.
    exists [EvLog (Println [LStr "Error calling ARIMA prediction:";
                            LErr err])].
    split.
    { apply since_app. unfold log_Println, emit. simpl.
      rewrite Hev. by rewrite <- !app_assoc. }
    repeat split; try (repeat constructor; done).
  - destruct (plotData draws os _ predictions symbol w3) as [[perr w4]|] eqn:Hplot;
      [|discriminate].
    apply plotData_Some in Hplot.
    pose proof (Plot_write_events os
                  (chart (List.map Close data) predictions symbol)
                  (8 * vg_Inch)%float (4 * vg_Inch)%float "plot.png" w3)
      as Hsave.
    rewrite <- Hplot in Hsave. simpl in Hsave.
    destruct perr as [err|]; injection Hrun as <-.
    + eexists [_; _]. split.
      { apply since_app. unfold log_Println, emit. simpl.
        rewrite Hsave, Hev. rewrite <- !app_assoc. reflexivity. }
      repeat split; try (repeat constructor; done).
      all: discriminate.
    + eexists [_; _]. split.
      { apply since_app. unfold emit. simpl.
        rewrite Hsave, Hev. rewrite <- !app_assoc. reflexivity. }
      repeat split; try (repeat constructor; done).
      all: discriminate.
Qed.

(** A call of the predictor that returns a forecast was made on finite
    prices: [json.Marshal] has let them through. *)
Lemma invoke_ok_finite (os : OS) (prices predictions : list float64)
    (w : World) :
  (invoke os prices w).1 = inr predictions ->
  Forall (fun f => is_finite f = true) prices.
Proof.
  rewrite callPythonARIMA_result. unfold json_Marshal.
  destruct (List.find _ prices) eqn:Hfind; [discriminate|]. intros _.
  apply Forall_forall. intros f Hf.
  apply list_elem_of_In in Hf.
  pose proof (List.find_none _ _ Hfind f Hf) as Hneg.
  simpl in Hneg. by apply negb_false_iff in Hneg.
Qed.

(** A run of the handler in which the predictor answers, the forecast
    points are finite, the chart is drawn and the file can be written: the
    chart is saved and then shown. *)
Lemma handler_plots (os : OS) (symbol : string) (w : World)
    (data : list StockData) (predictions : list float64) :
  fetch_result os symbol 12 = inr data ->
  2 <= len data ->
  (invoke os (List.map Close data) w).1 = inr predictions ->
  Forall (fun p => finite_XY p = true)
         (points_from (length (trailing (List.map Close data))) predictions) ->
  draws (chart (List.map Close data) predictions symbol) = true ->
  Save_result os = None ->
  exists w' : World,
    handler os symbol w = Some w'
    /\ since w w'
       = (handler_prefix symbol data
          ++ arima_trace encodeFloat os (List.map Close data))
         ++ [EvSave (chart (List.map Close data) predictions symbol)
               (8 * vg_Inch)%float (4 * vg_Inch)%float "plot.png";
             EvSetContent "plot.png"].
Proof.
  intros Hfetch Hlen Hres Hpred Hdraws Hsave.
  pose proof (invoke_ok_finite _ _ _ _ Hres) as Hfin.
  rewrite (handler_run _ _ _ _ Hfetch Hlen). simpl.
  set (w2 := mkWorld (files w) (events w ++ handler_prefix symbol data)).
  pose proof (callPythonARIMA_events arimaPredictExe encodeFloat
                json_Unmarshal os (List.map Close data) w2) as Hev.
  replace ((invoke os (List.map Close data) w2).1)
    with (inr predictions : error + list float64)
    by (rewrite <- Hres; by rewrite !callPythonARIMA_result).
  rewrite (plotData_finite _ _ _ _ _ _ (stock_points_finite _ Hfin) Hpred
             Hdraws).
  unfold Plot_write. rewrite Hsave.
  eexists. split; [reflexivity|].
  apply since_app. unfold emit. simpl.
  rewrite Hev. simpl. by rewrite <- !app_assoc.
Qed.

End handler_facts.

(** ** The window and the placement of the forecast *)

Lemma points_from_Y (base : nat) (ys : list float64) :
  Y <$> points_from base ys = ys.
Proof.
  apply list_eq. intros k. unfold points_from.
  rewrite list_lookup_fmap, list_lookup_imap.
  by destruct (ys !! k).
Qed.

Lemma points_from_lookup (base k : nat) (ys : list float64) (y : float64) :
  ys !! k = Some y ->
  points_from base ys !! k
  = Some (mkXY (float64_of_int (Z.of_nat (base + k))) y).
Proof.
  intros Hy. unfold points_from. by rewrite list_lookup_imap, Hy.
Qed.

Lemma points_from_X (base : nat) (ys : list float64) :
  X <$> points_from base ys
  = (fun k => float64_of_int (Z.of_nat k)) <$> seq base (length ys).
Proof.
  apply list_eq. intros k. unfold points_from.
  rewrite !list_lookup_fmap, list_lookup_imap.
  destruct (ys !! k) as [y|] eqn:Hy; simpl.
  - rewrite lookup_seq_lt by (by apply lookup_lt_Some in Hy). done.
  - rewrite lookup_seq_ge by (by apply lookup_ge_None in Hy). done.
Qed.

Lemma length_points_from (base : nat) (ys : list float64) :
  length (points_from base ys) = length ys.
Proof. unfold points_from. by rewrite length_imap. Qed.

Lemma historicalWindow_eq (prices : list float64) :
  historicalWindow prices = Some (trailing prices).
Proof.
  unfold historicalWindow. rewrite stockPoints_eq. simpl.
  by rewrite points_from_Y.
Qed.

(** C2. The prices the chart shows are
    [prices[max(0, len(prices)-90) : len(prices)]]: all of them, unchanged,
    when there are at most 90; the last 90 in their order when there are
    more; and the points carry the horizontal indices 0, 1, 2, ... *)
Theorem C2_historical_window (prices : list float64) :
  historicalWindow prices
  = Some (slice (Z.to_nat (Z.max 0 (len prices - 90))) (length prices) prices)
  /\ ((length prices <= 90)%nat -> historicalWindow prices = Some prices)
  /\ ((90 < length prices)%nat ->
      exists win : list float64,
        historicalWindow prices = Some win
        /\ length win = 90%nat
        /\ win = drop (length prices - 90) prices
        /\ forall k : nat, (k < 90)%nat ->
             win !! k = prices !! (length prices - 90 + k)%nat)
  /\ exists pts : list XY,
       stockPoints prices = Some pts
       /\ length pts = length (trailing prices)
       /\ forall (k : nat) (p : XY),
            pts !! k = Some p -> X p = float64_of_int (Z.of_nat k).
Proof.
  rewrite historicalWindow_eq. repeat split.
  - f_equal. unfold slice, trailing.
    replace (Z.to_nat (Z.max 0 (len prices - 90)))
      with (length prices - 90)%nat by (unfold len; lia).
    rewrite take_ge; [done|]. rewrite length_drop. lia.
  - intros Hle. f_equal. unfold trailing.
    replace (length prices - 90)%nat with 0%nat by lia. done.
  - intros Hgt. exists (trailing prices). repeat split.
    + unfold trailing. rewrite length_drop. lia.
    + intros k _. unfold trailing. by rewrite lookup_drop.
  - exists (points_from 0 (trailing prices)). repeat split.
    + apply stockPoints_eq.
    + apply length_points_from.
    + intros k p Hp. unfold points_from in Hp.
      rewrite list_lookup_imap in Hp.
      destruct (trailing prices !! k); simpl in Hp; [|done].
      by injection Hp as <-.
Qed.

(** A series of 91 prices, 0 to 90, and its use of C2 on both sides of
    the bound. *)
Lemma C2_historical_window_witness :
  historicalWindow prices5 = Some prices5
  /\ exists win : list float64,
       historicalWindow
         (List.map (fun n => float64_of_int (Z.of_nat n)) (seq 0 91))
       = Some win
       /\ length win = 90%nat.
Proof.
  split.
  - apply (C2_historical_window prices5). simpl. lia.
  - destruct (C2_historical_window
                (List.map (fun n => float64_of_int (Z.of_nat n)) (seq 0 91)))
      as (_ & _ & Hgt & _).
    destruct Hgt as (win & Hwin & Hlen & _).
    + rewrite length_map, length_seq. lia.
    + exists win. by split.
Defined.

(** C3. Forecast point [i] lies at horizontal index
    [len(historicalWindow) + i]: the historical points take the indices
    [0] to [len - 1] and the forecast goes on at [len], [len + 1], ..., so
    that the indices of the two series, one after the other, count up from
    0 with none left out and none used twice. For the prices 100 to 104
    and the forecast 105, 106 the indices 0 to 4 carry 100 to 104 and the
    indices 5 and 6 carry 105 and 106. *)
Theorem C3_forecast_placement :
  (forall prices predictions : list float64,
     exists (win : list float64) (stock pred : list XY),
       historicalWindow prices = Some win
       /\ stockPoints prices = Some stock
       /\ predPoints prices predictions = Some pred
       /\ (forall (j : nat) (y : float64),
             win !! j = Some y ->
             stock !! j = Some (mkXY (float64_of_int (Z.of_nat j)) y))
       /\ (forall (i : nat) (y : float64),
             predictions !! i = Some y ->
             pred !! i
             = Some (mkXY (float64_of_int (Z.of_nat (length win + i))) y))
       /\ length stock = length win
       /\ length pred = length predictions
       /\ X <$> (stock ++ pred)
          = (fun k => float64_of_int (Z.of_nat k))
              <$> seq 0 (length win + length predictions))
  /\ stockPoints [100; 101; 102; 103; 104]%float
     = Some [mkXY 0 100; mkXY 1 101; mkXY 2 102; mkXY 3 103; mkXY 4 104]%float
  /\ predPoints [100; 101; 102; 103; 104]%float [105; 106]%float
     = Some [mkXY 5 105; mkXY 6 106]%float.
Proof.
  split; [|split; vm_compute; reflexivity].
  intros prices predictions.
  exists (trailing prices), (points_from 0 (trailing prices)),
         (points_from (length (trailing prices)) predictions).
  rewrite historicalWindow_eq, stockPoints_eq, predPoints_eq.
  rewrite !length_points_from.
  do 3 (split; [done|]).
  split; [intros j y Hy; by apply (points_from_lookup 0)|].
  split; [intros i y Hy; by apply points_from_lookup|].
  do 2 (split; [done|]).
  rewrite fmap_app, !points_from_X, seq_app, fmap_app. done.
Qed.

(** ** The claims about the predictor process *)

Section claims.
Variable arimaPredictExe : string.
Variable encodeFloat : float64 -> string.
Variable json_Unmarshal : string -> error + list float64.
Variable draws : Plot -> bool.

Local Abbreviation invoke :=
  (callPythonARIMA arimaPredictExe encodeFloat json_Unmarshal).
Local Abbreviation handler :=
  (fetchButton arimaPredictExe encodeFloat json_Unmarshal draws).

(** C1. When the series the provider returned has fewer than two
    prices, the handler stops at one of its two guards on the size of
    the data (no data at all, or not enough for a prediction), which it
    logs: no temporary file is made, no process is run, no chart is
    saved, and the files are as they were. *)
Theorem C1_insufficient_data (os : OS) (symbol : string) (w : World)
    (data : list StockData) :
  fetch_result os symbol 12 = inr data ->
  (length (List.map Close data) < 2)%nat ->
  exists w' : World,
    handler os symbol w = Some w'
    /\ List.filter is_Run (since w w') = []
    /\ List.filter is_TempFile (since w w') = []
    /\ List.filter is_Save (since w w') = []
    /\ (exists e : Event,
          last (since w w') = Some e /\ insufficient_data e = true)
    /\ files w' = files w.
Proof.
  intros Hfetch Hlen. rewrite length_map in Hlen.
  destruct (handler_short arimaPredictExe encodeFloat json_Unmarshal draws
              os symbol w data Hfetch) as (msg & Hrun & Hmsg).
  { unfold len. lia. }
  eexists. split; [exact Hrun|].
  erewrite since_app by reflexivity.
  destruct (len data =? 0); simpl; repeat split; eauto.
Qed.

(** C4, for one call: once the temporary file [name] has been made,
    [os.Remove(name)] is called exactly once, it is the last thing the
    call does, and the file is gone when the call returns, whichever way
    the call ends. *)
Lemma release_exactly_once (os : OS) (prices : list float64) (w : World)
    (name : string) :
  EvTempFile name ∈ since w (invoke os prices w).2 ->
  length (List.filter (is_Remove name) (since w (invoke os prices w).2))
  = 1%nat
  /\ last (since w (invoke os prices w).2) = Some (EvRemove name)
  /\ files (invoke os prices w).2 !! name = None.
Proof.
  intros Hin.
  assert (Hname : TempFile_result os = inr name
                  /\ List.find (fun f => negb (is_finite f)) prices = None).
  { rewrite callPythonARIMA_since in Hin. unfold arima_trace in Hin.
    destruct (List.find _ prices); [by apply elem_of_nil in Hin|].
    destruct (TempFile_result os) as [|n]; [by apply elem_of_nil in Hin|].
    assert (n = name) as ->; [|done].
    unfold run_failure_log in Hin.
    destruct (Write_result os); [|destruct (Run_err _)]; simpl in Hin;
      repeat (apply elem_of_cons in Hin as [Hin|Hin]; [congruence|]);
      by apply elem_of_nil in Hin. }
  destruct Hname as [Hname Hfin].
  split; [|split].
  - rewrite callPythonARIMA_since. unfold arima_trace, run_failure_log.
    rewrite Hfin, Hname.
    destruct (Write_result os); [|destruct (Run_err _)]; simpl;
      rewrite bool_decide_eq_true_2 by done; done.
  - rewrite callPythonARIMA_since. unfold arima_trace, run_failure_log.
    rewrite Hfin, Hname.
    by destruct (Write_result os); [|destruct (Run_err _)].
  - unfold callPythonARIMA, json_Marshal. rewrite Hfin.
    unfold ioutil_TempFile. rewrite Hname. simpl.
    destruct (callPythonARIMA_staged _ _ _ _ _ _) as [res w3]. simpl.
    apply lookup_delete_eq.
Qed.

Lemma filter_none (P : Event -> bool) (l : list Event) :
  Forall (fun e => P e = false) l -> List.filter P l = [].
Proof.
  induction 1 as [|e l He _ IH]; simpl; [done|]. by rewrite He.
Qed.

Lemma handler_prefix_quiet (symbol : string) (data : list StockData)
    (P : Event -> bool) :
  P (EvFetch symbol 12) = false ->
  (forall c : LogCall, P (EvLog c) = false) ->
  Forall (fun e => P e = false) (handler_prefix symbol data).
Proof. intros HF HL. unfold handler_prefix. repeat constructor; auto. Qed.

(** A run of the handler splits in two: nothing is saved in the first
    part, nothing is staged, run or removed in the second, and the first
    part holds the whole call of the predictor if there was one. *)
Lemma handler_order (os : OS) (symbol : string) (w w' : World) :
  handler os symbol w = Some w' ->
  exists l1 l2 : list Event,
    since w w' = l1 ++ l2
    /\ Forall (fun e => is_Save e = false) l1
    /\ (forall name : string,
          Forall (fun e => is_Remove name e = false) l2)
    /\ Forall (fun e => is_TempFile e = false) l2
    /\ (forall name : string,
          EvTempFile name ∈ l1 ->
          length (List.filter (is_Remove name) l1) = 1%nat).
Proof.
  intros Hrun.
  destruct (fetch_result os symbol 12) as [err|data] eqn:Hfetch.
  - unfold fetchButton, fetchStockData in Hrun. rewrite Hfetch in Hrun.
    injection Hrun as <-.
    exists [EvFetch symbol 12;
            EvLog (Println [LStr "Error fetching data:"; LErr err])], [].
    split.
    { apply since_app. unfold log_Println, emit. simpl.
      by rewrite <- !app_assoc. }
    repeat split; try (repeat constructor; done).
    intros name Hin.
    repeat (apply elem_of_cons in Hin as [Hin|Hin]; [congruence|]).
    by apply elem_of_nil in Hin.
  - destruct (decide (len data < 2)) as [Hshort|Hlong].
    + destruct (handler_short arimaPredictExe encodeFloat json_Unmarshal draws
                  os symbol w data Hfetch Hshort) as (msg & Hw' & _).
      rewrite Hw' in Hrun. injection Hrun as <-.
      eexists _, []. split.
      { rewrite app_nil_r. apply since_app. reflexivity. }
      repeat split; try (repeat constructor; done).
      * destruct (len data =? 0); repeat constructor.
      * intros name Hin.
        destruct (len data =? 0); simpl in Hin;
          repeat (apply elem_of_cons in Hin as [Hin|Hin]; [congruence|]);
          by apply elem_of_nil in Hin.
    + destruct (handler_events arimaPredictExe encodeFloat json_Unmarshal draws
                  os symbol w w' data Hfetch ltac:(lia) Hrun)
        as (tail & Hsince & _ & HT & HR & _).
      exists (handler_prefix symbol data
              ++ arima_trace encodeFloat os (List.map Close data)), tail.
      split; [done|]. split; [|split; [done|split; [done|]]].
      * apply Forall_app. split;
          [by apply handler_prefix_quiet | apply arima_trace_no_Save].
      * intros name Hin.
        rewrite List.filter_app.
        rewrite (filter_none _ (handler_prefix symbol data))
          by (by apply handler_prefix_quiet).
        simpl.
        apply elem_of_app in Hin as [Hin|Hin].
        { unfold handler_prefix in Hin.
          repeat (apply elem_of_cons in Hin as [Hin|Hin]; [congruence|]).
          by apply elem_of_nil in Hin. }
        rewrite <- (callPythonARIMA_since arimaPredictExe encodeFloat
                      json_Unmarshal os _ w) in *.
        by apply release_exactly_once.
Qed.

(** C4. Once the temporary file has been made, [os.Remove] is called on
    it exactly once on every path out of [callPythonARIMA] (a normal
    return, a process that cannot be started, a non-zero exit status,
    an output that does not decode, a failed write of the executable):
    it is the last thing the call does and the file is gone when control
    is back in the caller. In a run of the handler the removal therefore
    comes before any saving of the chart, and still happens once only. *)
Theorem C4_artifact_released (os : OS) :
  (forall (prices : list float64) (w : World) (name : string),
      EvTempFile name ∈ since w (invoke os prices w).2 ->
      length (List.filter (is_Remove name) (since w (invoke os prices w).2))
      = 1%nat
      /\ last (since w (invoke os prices w).2) = Some (EvRemove name)
      /\ files (invoke os prices w).2 !! name = None)
  /\ (forall (symbol : string) (w w' : World) (name : string),
        handler os symbol w = Some w' ->
        all_before (is_Remove name) is_Save (since w w')
        /\ (EvTempFile name ∈ since w w' ->
            length (List.filter (is_Remove name) (since w w')) = 1%nat)).
Proof.
  split; [intros; by apply release_exactly_once|].
  intros symbol w w' name Hrun.
  destruct (handler_order os symbol w w' Hrun)
    as (l1 & l2 & -> & HS & HR & HT & Hone).
  split.
  - by apply all_before_app.
  - intros Hin. apply elem_of_app in Hin as [Hin|Hin].
    + rewrite List.filter_app, (filter_none _ l2) by done.
      rewrite app_nil_r. by apply Hone.
    + rewrite Forall_forall in HT. by specialize (HT _ Hin).
Qed.

(** The call on a request that can be encoded, with the artifact staged
    and written: the process is run once on the payload, and the result
    is read off the way the run ended. *)
Lemma invoke_staged (os : OS) (prices : list float64) (w : World)
    (name : string) :
  Forall (fun f => is_finite f = true) prices ->
  TempFile_result os = inr name ->
  Write_result os = None ->
  let r := Run_result os name (payload encodeFloat prices) in
  (invoke os prices w).1
  = match Run_err r with
    | Some err => inl err
    | None => json_Unmarshal (Run_stdout r)
    end
  /\ since w (invoke os prices w).2
     = [EvTempFile name; EvWrite name; EvClose name;
        EvRun name (payload encodeFloat prices) r]
       ++ run_failure_log r ++ [EvRemove name].
Proof.
  intros Hfin Hname Hwrite r. split.
  - rewrite callPythonARIMA_result.
    rewrite (json_Marshal_finite _ _ Hfin), Hname, Hwrite. done.
  - rewrite callPythonARIMA_since. unfold arima_trace.
    pose proof (json_Marshal_finite encodeFloat _ Hfin) as Hm.
    apply json_Marshal_payload in Hm as [_ ->].
    by rewrite Hname, Hwrite.
Qed.

(** A run of the handler in which the predictor was called and failed
    ends without a panic; nothing is saved, and only the temporary file
    may differ among the files. *)
Lemma handler_failed_files (os : OS) (symbol : string) (w : World)
    (data : list StockData) (name : string) (err : error) :
  fetch_result os symbol 12 = inr data ->
  2 <= len data ->
  TempFile_result os = inr name ->
  (invoke os (List.map Close data) w).1 = inl err ->
  exists w' : World,
    handler os symbol w = Some w'
    /\ List.filter is_Save (since w w') = []
    /\ forall file : string,
         file <> name -> files w' !! file = files w !! file.
Proof.
  intros Hfetch Hlen Hname Herr.
  assert (Hrun : exists w' : World, handler os symbol w = Some w').
  { rewrite (handler_run _ _ _ _ _ _ _ _ Hfetch Hlen). simpl.
    replace ((invoke os (List.map Close data) _).1) with (inl err : error + list float64)
      by (rewrite <- Herr; by rewrite !callPythonARIMA_result).
    eauto. }
  destruct Hrun as [w' Hrun]. exists w'. split; [done|].
  destruct (handler_events arimaPredictExe encodeFloat json_Unmarshal draws
              os symbol w w' data Hfetch Hlen Hrun)
    as (tail & Hsince & _ & _ & _ & Hfail).
  destruct (Hfail err Herr) as [Hquiet Hfiles].
  split.
  - rewrite Hsince, !List.filter_app.
    rewrite (filter_none _ tail) by done.
    rewrite (filter_none _ (arima_trace _ _ _))
      by apply arima_trace_no_Save.
    rewrite (filter_none _ (handler_prefix _ _)); [done|].
    by apply handler_prefix_quiet.
  - intros file Hne. rewrite Hfiles.
    destruct (callPythonARIMA_files arimaPredictExe encodeFloat
                json_Unmarshal os (List.map Close data)
                (mkWorld (files w) (events w ++ handler_prefix symbol data))
                name Hname) as [-> | ->]; simpl; [done|].
    by rewrite lookup_delete_ne.
Qed.

(** C5, as the code has it. When the predictor ends with a non-zero
    status, [callPythonARIMA] returns the error of [cmd.Run], an exit
    error whose text is "exit status N" and nothing more; the captured
    standard-error text goes into the line the function logs, not into
    the returned error. No forecast is returned, and the handler then
    saves no chart and leaves the chart file as it was. *)
Theorem C5_nonzero_exit (os : OS) (prices : list float64) (w : World)
    (name : string) (o : ProcessOutcome) :
  Forall (fun f => is_finite f = true) prices ->
  TempFile_result os = inr name ->
  Write_result os = None ->
  Run_result os name (payload encodeFloat prices) = Exited o ->
  exitStatus o <> 0 ->
  (invoke os prices w).1 = inl (ExitError (exitStatus o))
  /\ Error (ExitError (exitStatus o))
     = "exit status " +:+ string_of_Z (exitStatus o)
  /\ since w (invoke os prices w).2
     = [EvTempFile name; EvWrite name; EvClose name;
        EvRun name (payload encodeFloat prices) (Exited o);
        EvLog (Println [LStr "Error calling ARIMA prediction:";
                        LErr (ExitError (exitStatus o)); LStr "Stderr:";
                        LStr (capturedStderr o)]);
        EvRemove name]
  /\ (forall (symbol : string) (data : list StockData) (w0 : World),
        fetch_result os symbol 12 = inr data ->
        List.map Close data = prices ->
        2 <= len prices ->
        exists w1 : World,
          handler os symbol w0 = Some w1
          /\ List.filter is_Save (since w0 w1) = []
          /\ (name <> "plot.png" ->
              files w1 !! "plot.png" = files w0 !! "plot.png")).
Proof.
  intros Hfin Hname Hwrite Hrun Hstatus.
  assert (Herr : Run_err (Exited o) = Some (ExitError (exitStatus o))).
  { simpl. by replace (exitStatus o =? 0) with false by (symmetry; lia). }
  assert (Hres : forall w : World,
             (invoke os prices w).1 = inl (ExitError (exitStatus o))).
  { intros w2.
    destruct (invoke_staged os prices w2 name Hfin Hname Hwrite) as [-> _].
    by rewrite Hrun, Herr. }
  split; [apply Hres|]. split; [done|]. split.
  - destruct (invoke_staged os prices w name Hfin Hname Hwrite) as [_ ->].
    rewrite Hrun. unfold run_failure_log. by rewrite Herr.
  - intros symbol data w0 Hfetch <- Hlen.
    assert (Hlen' : 2 <= len data)
      by (unfold len in *; rewrite length_map in Hlen; lia).
    destruct (handler_failed_files os symbol w0 data name _
                Hfetch Hlen' Hname (Hres w0)) as (w1 & Hw1 & HS & HF).
    exists w1. split; [done|]. split; [done|].
    intros Hne. by apply HF.
Qed.

(** C6, as the code has it. When the predictor ends with status zero and
    its output does not decode into a slice of numbers, [callPythonARIMA]
    returns the decoder's error as it is: the diagnostic of the
    decoder, with nothing added. The raw output is neither attached to
    the error nor logged by the call. No forecast is returned. *)
Theorem C6_undecodable_output (os : OS) (prices : list float64) (w : World)
    (name : string) (o : ProcessOutcome) (err : error) :
  Forall (fun f => is_finite f = true) prices ->
  TempFile_result os = inr name ->
  Write_result os = None ->
  Run_result os name (payload encodeFloat prices) = Exited o ->
  exitStatus o = 0 ->
  json_Unmarshal (capturedStdout o) = inl err ->
  (invoke os prices w).1 = inl err
  /\ since w (invoke os prices w).2
     = [EvTempFile name; EvWrite name; EvClose name;
        EvRun name (payload encodeFloat prices) (Exited o);
        EvRemove name].
Proof.
  intros Hfin Hname Hwrite Hrun Hstatus Hdec.
  assert (Herr : Run_err (Exited o) = None) by (simpl; by rewrite Hstatus).
  destruct (invoke_staged os prices w name Hfin Hname Hwrite) as [-> ->].
  rewrite Hrun. unfold run_failure_log. rewrite Herr. simpl.
  by rewrite Hdec.
Qed.

(** X14. A call of [callPythonARIMA] runs at most one process, and any
    process it runs gets as its standard input, through the one call of
    [Run], the JSON object with the one field [prices] holding the prices
    (a slice that is not [nil]) in their order. When the prices are finite
    and the executable has been made and written, exactly one process is
    run, on that payload. *)
Theorem X14_request_payload (os : OS) (prices : list float64) (w : World) :
  let new := since w (invoke os prices w).2 in
  (stdins new = [] \/ stdins new = [payload encodeFloat prices])
  /\ (forall (name stdin : string) (r : RunResult),
        EvRun name stdin r ∈ new ->
        stdin = payload encodeFloat prices
        /\ json_Marshal encodeFloat prices = inr stdin
        /\ r = Run_result os name stdin)
  /\ (forall name : string,
        Forall (fun f => is_finite f = true) prices ->
        TempFile_result os = inr name ->
        Write_result os = None ->
        stdins new = [payload encodeFloat prices]
        /\ exists tail : list Event,
             new = [EvTempFile name; EvWrite name; EvClose name;
                    EvRun name (payload encodeFloat prices)
                      (Run_result os name (payload encodeFloat prices))]
                   ++ tail
             /\ Forall (fun e => is_Run e = false) tail).
Proof.
  intros new. subst new. rewrite callPythonARIMA_since.
  split; [apply arima_trace_stdins|]. split.
  - intros name stdin r Hin. unfold arima_trace, run_failure_log in Hin.
    unfold json_Marshal. fold (payload encodeFloat prices).
    destruct (List.find _ prices); [by apply elem_of_nil in Hin|].
    destruct (TempFile_result os) as [|n]; [by apply elem_of_nil in Hin|].
    destruct (Write_result os); [|destruct (Run_err _)]; simpl in Hin;
      repeat (apply elem_of_cons in Hin as [Hin|Hin];
              [try discriminate; injection Hin as -> -> ->; done|]);
      by apply elem_of_nil in Hin.
  - intros name Hfin Hname Hwrite.
    destruct (invoke_staged os prices w name Hfin Hname Hwrite) as [_ Hs].
    rewrite callPythonARIMA_since in Hs. rewrite Hs.
    split.
    + unfold run_failure_log. by destruct (Run_err _).
    + eexists. split; [reflexivity|].
      unfold run_failure_log. destruct (Run_err _); repeat constructor.
Qed.


End claims.

(** ** The claims about the chart *)

Lemma saved_app (l1 l2 : list Event) :
  saved (l1 ++ l2) = saved l1 ++ saved l2.
Proof. apply omap_app. Qed.

Lemma saved_none (l : list Event) :
  Forall (fun e => is_Save e = false) l -> saved l = [].
Proof.
  induction 1 as [|e l He _ IH]; [done|].
  destruct e; try discriminate He; exact IH.
Qed.

Lemma inches : (8 * vg_Inch = 576)%float /\ (4 * vg_Inch = 288)%float.
Proof. split; vm_compute; reflexivity. Qed.


(** C9. Whenever [plotData] returns without an error, the chart it saved
    has two series and no more, the historical one in red under the
    legend entry "Stock" and the forecast in green under "Prediction",
    the axis labels "Days" and "Price", a title that ends in the symbol,
    and it was written as [plot.png] (a PNG, by its extension) at 8 by 4
    inches. *)
Theorem C9_chart_contents (draws : Plot -> bool) (os : OS)
    (prices predictions : list float64)
    (symbol : string) (w w' : World) :
  plotData draws os prices predictions symbol w = Some (None, w') ->
  exists (p : Plot) (line predLine : Line),
    since w w'
    = [EvSave p (8 * vg_Inch)%float (4 * vg_Inch)%float "plot.png"]
    /\ files w' !! "plot.png"
       = Some (Image p (8 * vg_Inch)%float (4 * vg_Inch)%float)
    /\ plotters p = [line; predLine]
    /\ Legend p = [("Stock", line); ("Prediction", predLine)]
    /\ stockPoints prices = Some (XYs line)
    /\ predPoints prices predictions = Some (XYs predLine)
    /\ Color line = color.mkRGBA 255 0 0 255
    /\ Color predLine = color.mkRGBA 0 255 0 255
    /\ Color line <> Color predLine
    /\ X_Label p = "Days"
    /\ Y_Label p = "Price"
    /\ Title p = "Stock Prices and Predictions for " +:+ symbol.
Proof.
  intros Hplot. apply plotData_Some in Hplot.
  unfold Plot_write in Hplot.
  destruct (Save_result os); [discriminate|].
  injection Hplot as ->.
  eexists (chart prices predictions symbol), _, _.
  split; [by apply since_app|].
  split; [simpl; by rewrite lookup_insert_eq|].
  split; [reflexivity|]. split; [reflexivity|].
  split; [simpl; apply stockPoints_eq|].
  split; [simpl; apply predPoints_eq|].
  repeat split; done.
Qed.

(** ** The claims on concrete runs *)

Lemma prices5_finite : Forall (fun f => is_finite f = true) prices5.
Proof. repeat constructor. Qed.

(** A whole run of the handler: fetch, two log lines, the predictor
    staged, run and removed, the chart saved and shown. *)
Example handler_run_ok :
  since world0
  <$> fetchButton exe0 encodeFloat_whole json_Unmarshal_examples draws_ticks
        (os_with data5 predictor_ok) "AAPL" world0
  = Some (handler_prefix "AAPL" data5
          ++ [EvTempFile temp_name; EvWrite temp_name; EvClose temp_name;
              EvRun temp_name (payload encodeFloat_whole prices5) predictor_ok;
              EvRemove temp_name;
              EvSave (chart prices5 [105; 106]%float "AAPL")
                     576%float 288%float "plot.png";
              EvSetContent "plot.png"]).
Proof. vm_compute. reflexivity. Qed.

(** When the chart cannot be written [plotData] returns the error of
    [Save], empty forecast or not. *)
Example plotData_read_only :
  fst <$> plotData draws_ticks (os_read_only data5 predictor_ok) prices5 [] "AAPL" world0
  = Some (Some (PathError "open" "plot.png" "permission denied")).
Proof. vm_compute. reflexivity. Qed.

(** When the executable cannot be staged no process is run. *)
Example no_temp_no_run :
  (callPythonARIMA exe0 encodeFloat_whole json_Unmarshal_examples
     (os_no_temp data5 predictor_ok) prices5 world0).1
  = inl (PathError "open" temp_name "permission denied")
  /\ since world0
       (callPythonARIMA exe0 encodeFloat_whole json_Unmarshal_examples
          (os_no_temp data5 predictor_ok) prices5 world0).2 = [].
Proof. split; vm_compute; reflexivity. Qed.

(** A NaN among the prices: [json.Marshal] fails, nothing is staged or
    run; and [plotData] panics on the [nil] line. *)
Example nan_price :
  (callPythonARIMA exe0 encodeFloat_whole json_Unmarshal_examples
     (os_with data5 predictor_ok) [100%float; PrimFloat.nan] world0).1
  = inl (UnsupportedValueError "NaN")
  /\ plotData draws_ticks (os_with data5 predictor_ok) [100%float; PrimFloat.nan] []
       "AAPL" world0 = None.
Proof. split; vm_compute; reflexivity. Qed.

Lemma C1_insufficient_data_witness :
  fetch_result (os_with data1 predictor_ok) "AAPL" 12 = inr data1
  /\ exists w' : World,
       fetchButton exe0 encodeFloat_whole json_Unmarshal_examples draws_ticks
         (os_with data1 predictor_ok) "AAPL" world0 = Some w'
       /\ List.filter is_Run (since world0 w') = []
       /\ List.filter is_TempFile (since world0 w') = []
       /\ List.filter is_Save (since world0 w') = []
       /\ (exists e : Event,
             last (since world0 w') = Some e /\ insufficient_data e = true)
       /\ files w' = files world0.
Proof.
  split; [reflexivity|].
  apply (C1_insufficient_data exe0 encodeFloat_whole json_Unmarshal_examples draws_ticks
           (os_with data1 predictor_ok) "AAPL" world0 data1).
  - reflexivity.
  - simpl. lia.
Defined.

(** The four ways out of the call that C4 names, each on a run: the
    artifact is removed once, as the last thing the call does. *)
Lemma C4_artifact_released_witness :
  Forall
    (fun r : RunResult =>
       let w' := (callPythonARIMA exe0 encodeFloat_whole
                    json_Unmarshal_examples (os_with data5 r)
                    prices5 world0).2 in
       length (List.filter (is_Remove temp_name) (since world0 w')) = 1%nat
       /\ last (since world0 w') = Some (EvRemove temp_name)
       /\ files w' !! temp_name = None)
    [predictor_ok;
     StartFailed (PathError "fork/exec" temp_name "permission denied");
     predictor_failed;
     predictor_not_json].
Proof.
  repeat (apply List.Forall_cons;
          [ cbv beta zeta;
            apply (proj1 (C4_artifact_released exe0 encodeFloat_whole
                            json_Unmarshal_examples draws_ticks (os_with data5 _)));
            rewrite callPythonARIMA_since; vm_compute; constructor | ]).
  apply List.Forall_nil.
Defined.

Lemma C5_nonzero_exit_witness :
  Run_result (os_with data5 predictor_failed) temp_name
    (payload encodeFloat_whole prices5) = predictor_failed
  /\ (callPythonARIMA exe0 encodeFloat_whole json_Unmarshal_examples
        (os_with data5 predictor_failed) prices5 world0).1
     = inl (ExitError 1)
  /\ Error (ExitError 1) = "exit status 1".
Proof.
  split; [reflexivity|].
  destruct (C5_nonzero_exit exe0 encodeFloat_whole json_Unmarshal_examples draws_ticks
              (os_with data5 predictor_failed) prices5 world0 temp_name
              (mkOutcome 1 EmptyString "model failed")
              prices5_finite eq_refl eq_refl eq_refl)
    as (Hres & Htext & _).
  - simpl. lia.
  - split; [exact Hres | exact Htext].
Defined.

(** C5 as it was stated fails: the predictor ends with status 1 after
    writing "model failed" on its standard error, and the error that
    [callPythonARIMA] returns does not carry that text. *)
Lemma C5_error_lacks_stderr :
  Run_result (os_with data5 predictor_failed) temp_name
    (payload encodeFloat_whole prices5)
  = Exited (mkOutcome 1 EmptyString "model failed")
  /\ exists err : error,
       (callPythonARIMA exe0 encodeFloat_whole json_Unmarshal_examples
          (os_with data5 predictor_failed) prices5 world0).1 = inl err
       /\ ~ carries err "model failed".
Proof.
  split; [reflexivity|].
  exists (ExitError 1). split; [vm_compute; reflexivity|].
  unfold carries. vm_compute. discriminate.
Qed.

Lemma C6_undecodable_output_witness :
  json_Unmarshal_examples "not json"
  = inl (SyntaxError
           "invalid character 'o' in literal null (expecting 'u')" 2)
  /\ (callPythonARIMA exe0 encodeFloat_whole json_Unmarshal_examples
        (os_with data5 predictor_not_json) prices5 world0).1
     = inl (SyntaxError
              "invalid character 'o' in literal null (expecting 'u')" 2).
Proof.
  split; [reflexivity|].
  apply (C6_undecodable_output exe0 encodeFloat_whole json_Unmarshal_examples
           (os_with data5 predictor_not_json) prices5 world0 temp_name
           (mkOutcome 0 "not json" EmptyString)
           (SyntaxError
              "invalid character 'o' in literal null (expecting 'u')" 2)
           prices5_finite eq_refl eq_refl eq_refl eq_refl eq_refl).
Defined.

(** C6 as it was stated fails: the predictor ends with status 0 after
    writing "not json", and the error that [callPythonARIMA] returns
    does not carry that output; nor does the call log it. *)
Lemma C6_error_lacks_output :
  Run_result (os_with data5 predictor_not_json) temp_name
    (payload encodeFloat_whole prices5)
  = Exited (mkOutcome 0 "not json" EmptyString)
  /\ exists err : error,
       (callPythonARIMA exe0 encodeFloat_whole json_Unmarshal_examples
          (os_with data5 predictor_not_json) prices5 world0).1 = inl err
       /\ ~ carries err "not json"
       /\ List.filter (fun e => match e with EvLog _ => true | _ => false end)
            (since world0
               (callPythonARIMA exe0 encodeFloat_whole
                  json_Unmarshal_examples
                  (os_with data5 predictor_not_json) prices5 world0).2)
          = [].
Proof.
  split; [reflexivity|].
  eexists. split; [vm_compute; reflexivity|]. split.
  - unfold carries. vm_compute. discriminate.
  - rewrite callPythonARIMA_since. vm_compute. reflexivity.
Qed.



Lemma X14_request_payload_witness :
  stdins (since world0
            (callPythonARIMA exe0 encodeFloat_whole json_Unmarshal_examples
               (os_with data5 predictor_ok) prices5 world0).2)
  = ["{" +:+ dquote +:+ "prices" +:+ dquote +:+ ":[100,101,102,103,104]}"].
Proof.
  apply (proj2 (proj2 (X14_request_payload exe0 encodeFloat_whole
                         json_Unmarshal_examples
                         (os_with data5 predictor_ok) prices5 world0))
           temp_name prices5_finite eq_refl eq_refl).
Defined.

Lemma C9_chart_contents_witness :
  exists (p : Plot) (line predLine : Line),
    plotters p = [line; predLine]
    /\ Legend p = [("Stock", line); ("Prediction", predLine)]
    /\ XYs line
       = [mkXY 0 100; mkXY 1 101; mkXY 2 102; mkXY 3 103; mkXY 4 104]%float
    /\ XYs predLine = [mkXY 5 105; mkXY 6 106]%float
    /\ Title p = "Stock Prices and Predictions for AAPL".
Proof.
  destruct (C9_chart_contents draws_ticks (os_with data5 predictor_ok)
              prices5
              [105; 106]%float "AAPL" world0
              (Plot_write (os_with data5 predictor_ok)
                 (chart prices5 [105; 106]%float "AAPL")
                 (8 * vg_Inch)%float (4 * vg_Inch)%float "plot.png"
                 world0).2)
    as (p & line & predLine & _ & _ & Hp & HL & Hs & Hf & _ & _ & _ & _ & _ & HT).
  - vm_compute. reflexivity.
  - exists p, line, predLine.
    split; [exact Hp|]. split; [exact HL|].
    split.
    { rewrite stockPoints_eq in Hs. injection Hs as <-.
      vm_compute. reflexivity. }
    split.
    { rewrite predPoints_eq in Hf. injection Hf as <-.
      vm_compute. reflexivity. }
    exact HT.
Defined.

(** ** More on the chart *)






Lemma trailing_app (older recent : list float64) :
  (90 <= length recent)%nat -> trailing (older ++ recent) = trailing recent.
Proof.
  intros Hlen. unfold trailing. rewrite length_app.
  rewrite drop_app_ge by lia. f_equal. lia.
Qed.

Lemma plotData_trailing (draws : Plot -> bool) (os : OS)
    (prices prices' predictions : list float64)
    (symbol : string) (w : World) :
  trailing prices = trailing prices' ->
  plotData draws os prices predictions symbol w
  = plotData draws os prices' predictions symbol w.
Proof.
  intros Heq. unfold plotData.
  by rewrite !stockPoints_eq, !predPoints_eq, Heq.
Qed.

(** X1. Only the last 90 prices reach the chart: whatever came before
    them, a series that ends in the same 90 or more prices gives the same
    points, the same chart and the same result of [plotData]. *)
Theorem X1_only_the_window_matters (draws : Plot -> bool) (os : OS)
    (older recent predictions : list float64) (symbol : string) (w : World) :
  (90 <= length recent)%nat ->
  stockPoints (older ++ recent) = stockPoints recent
  /\ predPoints (older ++ recent) predictions = predPoints recent predictions
  /\ plotData draws os (older ++ recent) predictions symbol w
     = plotData draws os recent predictions symbol w.
Proof.
  intros Hlen. pose proof (trailing_app older recent Hlen) as Heq.
  rewrite !stockPoints_eq, !predPoints_eq, Heq.
  repeat split. by apply plotData_trailing.
Qed.



(** ** More on the call of the predictor *)

Section more_claims.
Variable arimaPredictExe : string.
Variable encodeFloat : float64 -> string.
Variable json_Unmarshal : string -> error + list float64.
Variable draws : Plot -> bool.

Local Abbreviation invoke :=
  (callPythonARIMA arimaPredictExe encodeFloat json_Unmarshal).
Local Abbreviation handler :=
  (fetchButton arimaPredictExe encodeFloat json_Unmarshal draws).

Lemma find_first (P : float64 -> bool) (l1 l2 : list float64) (f : float64) :
  Forall (fun x => P x = false) l1 -> P f = true ->
  List.find P (l1 ++ f :: l2) = Some f.
Proof.
  induction 1 as [|x l1 Hx _ IH]; intros Hf; simpl.
  - by rewrite Hf.
  - rewrite Hx. by apply IH.
Qed.

Lemma arima_trace_Run (os : OS) (prices : list float64)
    (name stdin : string) (r : RunResult) :
  EvRun name stdin r ∈ arima_trace encodeFloat os prices ->
  stdin = payload encodeFloat prices
  /\ Forall (fun f => is_finite f = true) prices
  /\ TempFile_result os = inr name
  /\ Write_result os = None
  /\ r = Run_result os name stdin.
Proof.
  intros Hin. unfold arima_trace, run_failure_log in Hin.
  destruct (List.find _ prices) eqn:Hfind; [by apply elem_of_nil in Hin|].
  assert (Hfin : Forall (fun f => is_finite f = true) prices).
  { apply Forall_forall. intros f Hf. apply list_elem_of_In in Hf.
    pose proof (List.find_none _ _ Hfind f Hf) as Hneg.
    simpl in Hneg. by apply negb_false_iff in Hneg. }
  destruct (TempFile_result os) as [|n]; [by apply elem_of_nil in Hin|].
  destruct (Write_result os); [|destruct (Run_err _)]; simpl in Hin;
    repeat (apply elem_of_cons in Hin as [Hin|Hin];
            [try discriminate; injection Hin as -> -> ->; done|]);
    by apply elem_of_nil in Hin.
Qed.

(** X3. [callPythonARIMA] returns a forecast in exactly one case: every
    price is finite, the temporary file is made and written, the process
    ends with status zero and its output decodes; the forecast is then
    the decoded slice as it is. *)
Theorem X3_forecast_returned (os : OS) (prices predictions : list float64)
    (w : World) :
  (invoke os prices w).1 = inr predictions
  <-> exists (name : string) (o : ProcessOutcome),
        Forall (fun f => is_finite f = true) prices
        /\ TempFile_result os = inr name
        /\ Write_result os = None
        /\ Run_result os name (payload encodeFloat prices) = Exited o
        /\ exitStatus o = 0
        /\ json_Unmarshal (capturedStdout o) = inr predictions.
Proof.
  split.
  - intros Hres.
    pose proof (invoke_ok_finite _ _ _ _ _ _ _ Hres) as Hfin.
    rewrite callPythonARIMA_result in Hres.
    rewrite (json_Marshal_finite _ _ Hfin) in Hres.
    destruct (TempFile_result os) as [|name]; [discriminate|].
    destruct (Write_result os); [discriminate|]. simpl in Hres.
    destruct (Run_result os name _) as [e|o] eqn:Hrun; [discriminate|].
    simpl in Hres.
    destruct (exitStatus o =? 0) eqn:Hst; [|discriminate].
    exists name, o. repeat split; try done. lia.
  - intros (name & o & Hfin & Hname & Hwrite & Hrun & Hst & Hdec).
    rewrite callPythonARIMA_result.
    rewrite (json_Marshal_finite _ _ Hfin), Hname, Hwrite. simpl.
    rewrite Hrun. simpl. by rewrite Hst.
Qed.

(** X4. A failure before the [defer]: when a price is a NaN or an
    infinity the call returns the encoder's error about the first such
    price, and when the temporary file cannot be made it returns that
    error; in both cases the world is left exactly as it was, with no file
    made, nothing logged and no removal tried. *)
Theorem X4_failure_before_staging (os : OS) (w : World) :
  (forall (l1 l2 : list float64) (f : float64),
      Forall (fun x => is_finite x = true) l1 ->
      is_finite f = false ->
      invoke os (l1 ++ f :: l2) w
      = (inl (UnsupportedValueError (unsupported_text f)), w))
  /\ (forall (prices : list float64) (err : error),
        Forall (fun x => is_finite x = true) prices ->
        TempFile_result os = inl err ->
        invoke os prices w = (inl err, w)).
Proof.
  split.
  - intros l1 l2 f Hfin Hf. unfold callPythonARIMA, json_Marshal.
    rewrite (find_first _ l1 l2 f); [done| |by rewrite Hf].
    eapply Forall_impl; [exact Hfin|]. intros x Hx. simpl. by rewrite Hx.
  - intros prices err Hfin Herr. unfold callPythonARIMA.
    rewrite (json_Marshal_finite _ _ Hfin).
    unfold ioutil_TempFile. by rewrite Herr.
Qed.

(** X5. When the executable cannot be written to the temporary file, the
    call returns that error without closing or running the file, and
    still removes it. *)
Theorem X5_write_failure (os : OS) (prices : list float64) (w : World)
    (name : string) (err : error) :
  Forall (fun f => is_finite f = true) prices ->
  TempFile_result os = inr name ->
  Write_result os = Some err ->
  (invoke os prices w).1 = inl err
  /\ since w (invoke os prices w).2
     = [EvTempFile name; EvWrite name; EvRemove name]
  /\ files (invoke os prices w).2 !! name = None.
Proof.
  intros Hfin Hname Hwrite. split; [|split].
  - rewrite callPythonARIMA_result.
    by rewrite (json_Marshal_finite _ _ Hfin), Hname, Hwrite.
  - rewrite callPythonARIMA_since. unfold arima_trace.
    pose proof (json_Marshal_finite encodeFloat _ Hfin) as Hm.
    apply json_Marshal_payload in Hm as [_ ->].
    by rewrite Hname, Hwrite.
  - unfold callPythonARIMA.
    rewrite (json_Marshal_finite _ _ Hfin).
    unfold ioutil_TempFile. rewrite Hname. simpl.
    destruct (callPythonARIMA_staged _ _ _ _ _ _) as [res w3]. simpl.
    apply lookup_delete_eq.
Qed.

(** X6. When the process cannot be started, the call returns the error
    of the start, logs it once with an empty standard-error text, and
    removes the file; the output is never decoded. *)
Theorem X6_start_failure (os : OS) (prices : list float64) (w : World)
    (name : string) (err : error) :
  Forall (fun f => is_finite f = true) prices ->
  TempFile_result os = inr name ->
  Write_result os = None ->
  Run_result os name (payload encodeFloat prices) = StartFailed err ->
  (invoke os prices w).1 = inl err
  /\ since w (invoke os prices w).2
     = [EvTempFile name; EvWrite name; EvClose name;
        EvRun name (payload encodeFloat prices) (StartFailed err);
        EvLog (Println [LStr "Error calling ARIMA prediction:"; LErr err;
                        LStr "Stderr:"; LStr EmptyString]);
        EvRemove name].
Proof.
  intros Hfin Hname Hwrite Hrun.
  destruct (invoke_staged arimaPredictExe encodeFloat json_Unmarshal
              os prices w name Hfin Hname Hwrite) as [-> ->].
  by rewrite Hrun.
Qed.

(** The runs of the handler, path by path. *)
Lemma handler_cases (os : OS) (symbol : string) (w w' : World) :
  handler os symbol w = Some w' ->
  (exists err : error,
      fetch_result os symbol 12 = inl err
      /\ since w w' = [EvFetch symbol 12;
                      EvLog (Println [LStr "Error fetching data:"; LErr err])]
      /\ files w' = files w)
  \/ (exists (data : list StockData) (l : list Event),
        fetch_result os symbol 12 = inr data
        /\ len data < 2
        /\ since w w' = l
        /\ Forall (fun e => match e with
                            | EvFetch _ _ | EvLog _ => True
                            | _ => False
                            end) l
        /\ files w' = files w)
  \/ (exists (data : list StockData) (tail : list Event),
        fetch_result os symbol 12 = inr data
        /\ 2 <= len data
        /\ since w w'
           = (handler_prefix symbol data
              ++ arima_trace encodeFloat os (List.map Close data)) ++ tail
        /\ ((exists err : error,
               (invoke os (List.map Close data) w).1 = inl err
               /\ tail = [EvLog (Println
                                   [LStr "Error calling ARIMA prediction:";
                                    LErr err])]
               /\ files w' = files (invoke os (List.map Close data) w).2)
            \/ (exists (predictions : list float64) (err : error),
                  (invoke os (List.map Close data) w).1 = inr predictions
                  /\ Save_result os = Some err
                  /\ tail = [EvSave (chart (List.map Close data)
                                       predictions symbol)
                               (8 * vg_Inch)%float (4 * vg_Inch)%float
                               "plot.png";
                             EvLog (Println [LStr "Error plotting data:";
                                             LErr err])]
                  /\ files w' = files (invoke os (List.map Close data) w).2)
            \/ (exists predictions : list float64,
                  (invoke os (List.map Close data) w).1 = inr predictions
                  /\ Save_result os = None
                  /\ tail = [EvSave (chart (List.map Close data)
                                       predictions symbol)
                               (8 * vg_Inch)%float (4 * vg_Inch)%float
                               "plot.png";
                             EvSetContent "plot.png"]
                  /\ files w'
                     = <["plot.png" :=
                           Image (chart (List.map Close data)
                                    predictions symbol)
                                 (8 * vg_Inch)%float (4 * vg_Inch)%float]>
                         (files (invoke os (List.map Close data) w).2)))).
Proof.
  intros Hrun.
  destruct (fetch_result os symbol 12) as [err|data] eqn:Hfetch.
  { left. exists err. split; [done|].
    unfold fetchButton, fetchStockData in Hrun. rewrite Hfetch in Hrun.
    injection Hrun as <-. split; [|done].
    apply since_app. unfold log_Println, emit. simpl.
    by rewrite <- !app_assoc. }
  right.
  destruct (decide (len data < 2)) as [Hshort|Hlong].
  { left.
    destruct (handler_short arimaPredictExe encodeFloat json_Unmarshal draws
                os symbol w data Hfetch Hshort) as (msg & Hw' & _).
    rewrite Hw' in Hrun. injection Hrun as <-.
    eexists data, _. split; [done|]. split; [done|].
    split; [by apply since_app|]. split; [|done].
    destruct (len data =? 0); repeat constructor. }
  right.
  assert (Hlen : 2 <= len data) by lia.
  rewrite (handler_run _ _ _ _ _ _ _ _ Hfetch Hlen) in Hrun. simpl in Hrun.
  exists data.
  set (prices := List.map Close data) in *.
  set (w2 := mkWorld (files w) (events w ++ handler_prefix symbol data)) in *.
  pose proof (callPythonARIMA_events arimaPredictExe encodeFloat
                json_Unmarshal os prices w2) as Hev.
  assert (Hres : (invoke os prices w2).1 = (invoke os prices w).1)
    by (by rewrite !callPythonARIMA_result).
  assert (Hfiles : files (invoke os prices w2).2
                   = files (invoke os prices w).2).
  { unfold callPythonARIMA.
    destruct (json_Marshal encodeFloat prices); [done|].
    unfold ioutil_TempFile.
    destruct (TempFile_result os); [done|]. simpl.
    unfold callPythonARIMA_staged, File_Write.
    destruct (Write_result os); [done|]. simpl.
    destruct (Run_err _); [done|]. by destruct (json_Unmarshal _). }
  rewrite <- Hres, <- Hfiles.
  destruct (invoke os prices w2) as [res w3]. simpl in *.
  destruct res as [err|predictions].
  - injection Hrun as <-. eexists. split; [done|]. split; [done|]. split.
    { apply since_app. unfold log_Println, emit. simpl.
      rewrite Hev. rewrite <- !app_assoc. reflexivity. }
    left. exists err. done.
  - destruct (plotData draws os prices predictions symbol w3) as [[perr w4]|] eqn:Hplot;
      [|discriminate].
    apply plotData_Some in Hplot. unfold Plot_write in Hplot.
    destruct (Save_result os) as [e|] eqn:Hsave;
      injection Hplot as -> ->; injection Hrun as <-.
    + eexists. split; [done|]. split; [done|]. split.
      { apply since_app. unfold log_Println, emit. simpl.
        rewrite Hev. rewrite <- !app_assoc. reflexivity. }
      right. left. exists predictions, e. done.
    + eexists. split; [done|]. split; [done|]. split.
      { apply since_app. unfold emit. simpl.
        rewrite Hev. rewrite <- !app_assoc. reflexivity. }
      right. right. exists predictions. done.
Qed.

Lemma not_in_prefix (symbol : string) (data : list StockData) (e : Event) :
  e ∈ handler_prefix symbol data ->
  match e with EvFetch _ _ | EvLog _ => True | _ => False end.
Proof.
  unfold handler_prefix. intros Hin.
  repeat (apply elem_of_cons in Hin as [->|Hin]; [done|]).
  by apply elem_of_nil in Hin.
Qed.

Lemma not_in_trace (os : OS) (prices : list float64) (e : Event) :
  e ∈ arima_trace encodeFloat os prices ->
  match e with EvSave _ _ _ _ | EvSetContent _ | EvFetch _ _ => False
          | _ => True end.
Proof.
  unfold arima_trace, run_failure_log. intros Hin.
  destruct (List.find _ prices); [by apply elem_of_nil in Hin|].
  destruct (TempFile_result os); [by apply elem_of_nil in Hin|].
  destruct (Write_result os); [|destruct (Run_err _)]; simpl in Hin;
    repeat (apply elem_of_cons in Hin as [->|Hin]; [done|]);
    by apply elem_of_nil in Hin.
Qed.

(** X8. The handler runs the predictor only on what it fetched: if a
    process was run, the provider had answered with at least two
    elements, all their closing prices are finite, and the standard input
    of the process is the payload of exactly these closing prices in
    their order. *)
Theorem X8_request_is_the_fetched_closes (os : OS) (symbol : string)
    (w w' : World) (name stdin : string) (r : RunResult) :
  handler os symbol w = Some w' ->
  EvRun name stdin r ∈ since w w' ->
  exists data : list StockData,
    fetch_result os symbol 12 = inr data
    /\ 2 <= len data
    /\ Forall (fun f => is_finite f = true) (List.map Close data)
    /\ stdin = payload encodeFloat (List.map Close data)
    /\ TempFile_result os = inr name
    /\ r = Run_result os name stdin.
Proof.
  intros Hrun Hin.
  destruct (handler_cases os symbol w w' Hrun)
    as [(err & _ & Hs & _)
       |[(data & l & _ & _ & Hs & Hl & _)
        |(data & tail & Hfetch & Hlen & Hs & Htail)]];
    rewrite Hs in Hin.
  - repeat (apply elem_of_cons in Hin as [Hin|Hin]; [discriminate|]).
    by apply elem_of_nil in Hin.
  - rewrite Forall_forall in Hl. by apply Hl in Hin.
  - exists data. split; [done|]. split; [done|].
    apply elem_of_app in Hin as [Hin|Hin].
    + apply elem_of_app in Hin as [Hin|Hin].
      * by apply not_in_prefix in Hin.
      * apply arima_trace_Run in Hin as (-> & Hfin & Hname & _ & Hr). done.
    + destruct Htail as [(err & _ & -> & _)
                        |[(ps & err & _ & _ & -> & _)|(ps & _ & _ & -> & _)]];
        repeat (apply elem_of_cons in Hin as [Hin|Hin]; [discriminate|]);
        by apply elem_of_nil in Hin.
Qed.

(** X9. The window is given a new image in exactly one case: the
    provider answered with at least two elements, the predictor returned a
    forecast and the chart was written. The image is then [plot.png], the
    last thing the handler does is to show it, and the file holds the chart
    of the fetched closing prices and of that forecast. After any failure
    the window keeps what it showed. *)
Theorem X9_image_shown (os : OS) (symbol : string) (w w' : World)
    (image : string) :
  handler os symbol w = Some w' ->
  (EvSetContent image ∈ since w w'
   <-> image = "plot.png"
       /\ exists (data : list StockData) (predictions : list float64),
            fetch_result os symbol 12 = inr data
            /\ 2 <= len data
            /\ (invoke os (List.map Close data) w).1 = inr predictions
            /\ Save_result os = None)
  /\ (EvSetContent image ∈ since w w' ->
      last (since w w') = Some (EvSetContent "plot.png")
      /\ exists (data : list StockData) (predictions : list float64),
           fetch_result os symbol 12 = inr data
           /\ (invoke os (List.map Close data) w).1 = inr predictions
           /\ saved (since w w')
              = [chart (List.map Close data) predictions symbol]
           /\ files w' !! "plot.png"
              = Some (Image (chart (List.map Close data) predictions symbol)
                            (8 * vg_Inch)%float (4 * vg_Inch)%float)).
Proof.
  intros Hrun.
  destruct (handler_cases os symbol w w' Hrun)
    as [(err & Hfetch & Hs & _)
       |[(data & l & Hfetch & Hshort & Hs & Hl & _)
        |(data & tail & Hfetch & Hlen & Hs & Htail)]];
    rewrite Hs.
  - split.
    + split.
      * intros Hin.
        repeat (apply elem_of_cons in Hin as [Hin|Hin]; [discriminate|]).
        by apply elem_of_nil in Hin.
      * intros (_ & d & ps & Hd & _). congruence.
    + intros Hin.
      repeat (apply elem_of_cons in Hin as [Hin|Hin]; [discriminate|]).
      by apply elem_of_nil in Hin.
  - rewrite Forall_forall in Hl. split.
    + split.
      * intros Hin. by apply Hl in Hin.
      * intros (_ & d & ps & Hd & Hlen & _).
        assert (d = data) as -> by congruence. lia.
    + intros Hin. by apply Hl in Hin.
  - assert (Hpre : EvSetContent image ∈ tail
                   <-> EvSetContent image
                       ∈ (handler_prefix symbol data
                          ++ arima_trace encodeFloat os (List.map Close data))
                         ++ tail).
    { rewrite !elem_of_app. split; [by right|].
      intros [[Hin|Hin]|Hin]; [| |done].
      - by apply not_in_prefix in Hin.
      - by apply not_in_trace in Hin. }
    rewrite <- Hpre.
    destruct Htail as [(err & Herr & -> & _)
                      |[(ps & err & Hres & Hsave & -> & _)
                       |(ps & Hres & Hsave & -> & Hfiles)]].
    + split.
      * split.
        -- intros Hin.
           repeat (apply elem_of_cons in Hin as [Hin|Hin]; [discriminate|]).
           by apply elem_of_nil in Hin.
        -- intros (_ & d & ps & Hd & _ & Hps & _).
           assert (d = data) as -> by congruence. congruence.
      * intros Hin.
        repeat (apply elem_of_cons in Hin as [Hin|Hin]; [discriminate|]).
        by apply elem_of_nil in Hin.
    + split.
      * split.
        -- intros Hin.
           repeat (apply elem_of_cons in Hin as [Hin|Hin]; [discriminate|]).
           by apply elem_of_nil in Hin.
        -- intros (_ & d & ps' & _ & _ & _ & Hs'). congruence.
      * intros Hin.
        repeat (apply elem_of_cons in Hin as [Hin|Hin]; [discriminate|]).
        by apply elem_of_nil in Hin.
    + assert (Himg : EvSetContent image
                     ∈ [EvSave (chart (List.map Close data) ps symbol)
                          (8 * vg_Inch)%float (4 * vg_Inch)%float "plot.png";
                        EvSetContent "plot.png"]
                     -> image = "plot.png").
      { intros Hin.
        apply elem_of_cons in Hin as [Hin|Hin]; [discriminate|].
        apply elem_of_cons in Hin as [Hin|Hin]; [congruence|].
        by apply elem_of_nil in Hin. }
      split.
      * split.
        -- intros Hin. split; [by apply Himg|]. by exists data, ps.
        -- intros (-> & _). apply elem_of_cons. right. apply elem_of_cons. by left.
      * intros Hin. split.
        -- by rewrite last_app.
        -- exists data, ps. split; [done|]. split; [done|]. split.
           ++ rewrite !saved_app.
              rewrite (saved_none (handler_prefix symbol data))
                by (by apply handler_prefix_quiet).
              by rewrite (saved_none (arima_trace encodeFloat os _))
                by apply arima_trace_no_Save.
           ++ rewrite Hfiles. apply lookup_insert_eq.
Qed.


(** X11. The loop that copies the closing prices never panics: it gives
    a slice as long as the data, with at each index the closing price of
    the element of the data at that index. *)
Theorem X11_closing_prices_copied (data : list StockData) :
  exists prices : list float64,
    prices_of data = Some prices
    /\ len prices = len data
    /\ forall (i : nat) (d : StockData),
         data !! i = Some d -> prices !! i = Some (Close d).
Proof.
  exists (List.map Close data). split; [apply prices_of_eq|]. split.
  - unfold len. by rewrite length_map.
  - intros i d Hd. change (List.map Close data) with (Close <$> data).
    by rewrite list_lookup_fmap, Hd.
Qed.

(** The handler only adds to the trace. *)
Lemma handler_extends (os : OS) (symbol : string) (w w' : World) :
  handler os symbol w = Some w' ->
  events w' = events w ++ since w w'.
Proof.
  intros Hrun.
  assert (Hnew : exists new : list Event, events w' = events w ++ new).
  { destruct (fetch_result os symbol 12) as [err|data] eqn:Hfetch.
    { unfold fetchButton, fetchStockData in Hrun. rewrite Hfetch in Hrun.
      injection Hrun as <-. unfold log_Println, emit. simpl.
      rewrite <- !app_assoc. eauto. }
    destruct (decide (len data < 2)) as [Hshort|Hlong].
    { destruct (handler_short arimaPredictExe encodeFloat json_Unmarshal
                  draws os symbol w data Hfetch Hshort) as (msg & Hw' & _).
      rewrite Hw' in Hrun. injection Hrun as <-. simpl. eauto. }
    assert (Hlen : 2 <= len data) by lia.
    rewrite (handler_run _ _ _ _ _ _ _ _ Hfetch Hlen) in Hrun.
    simpl in Hrun.
    set (w2 := mkWorld (files w) (events w ++ handler_prefix symbol data))
      in *.
    pose proof (callPythonARIMA_events arimaPredictExe encodeFloat
                  json_Unmarshal os (List.map Close data) w2) as Hev.
    destruct (invoke os (List.map Close data) w2) as [res w3]. simpl in *.
    destruct res as [err|predictions].
    - injection Hrun as <-. unfold log_Println, emit. simpl.
      rewrite Hev, <- !app_assoc. eauto.
    - destruct (plotData draws os _ predictions symbol w3) as [[perr w4]|]
        eqn:Hplot; [|discriminate].
      apply plotData_Some in Hplot.
      pose proof (Plot_write_events os
                    (chart (List.map Close data) predictions symbol)
                    (8 * vg_Inch)%float (4 * vg_Inch)%float "plot.png" w3)
        as Hsave.
      rewrite <- Hplot in Hsave. simpl in Hsave.
      destruct perr as [err|]; injection Hrun as <-;
        unfold log_Println, emit; simpl;
        rewrite Hsave, Hev, <- !app_assoc; eauto. }
  destruct Hnew as [new Hnew].
  by rewrite (since_app _ _ _ Hnew).
Qed.

Lemma filter_all_false (P : Event -> bool) (l : list Event) :
  (forall e : Event, e ∈ l -> P e = false) -> List.filter P l = [].
Proof.
  intros Hall. apply filter_none. by apply Forall_forall.
Qed.

Lemma arima_trace_balance (os : OS) (prices : list float64) (name : string) :
  length (List.filter (is_Remove name) (arima_trace encodeFloat os prices))
  = length (List.filter (is_Staged name) (arima_trace encodeFloat os prices)).
Proof.
  unfold arima_trace, run_failure_log.
  destruct (List.find _ prices); [done|].
  destruct (TempFile_result os) as [|n]; [done|].
  destruct (Write_result os); [|destruct (Run_err _)]; simpl;
    by destruct (bool_decide (n = name)).
Qed.

(** In a run of the handler every temporary file is the object of as many
    calls of [os.Remove] as it was made. *)
Lemma handler_balance (os : OS) (symbol : string) (w w' : World)
    (name : string) :
  handler os symbol w = Some w' ->
  length (List.filter (is_Remove name) (since w w'))
  = length (List.filter (is_Staged name) (since w w')).
Proof.
  intros Hrun.
  destruct (handler_cases os symbol w w' Hrun)
    as [(err & _ & -> & _)
       |[(data & l & _ & _ & -> & Hl & _)
        |(data & tail & _ & _ & -> & Htail)]].
  - done.
  - rewrite Forall_forall in Hl.
    rewrite !filter_all_false; [done| |];
      intros e He; apply Hl in He; by destruct e.
  - rewrite !List.filter_app, !length_app.
    rewrite arima_trace_balance. unfold handler_prefix. simpl.
    destruct Htail as [(err & _ & -> & _)
                      |[(ps & err & _ & _ & -> & _)|(ps & _ & _ & -> & _)]];
      done.
Qed.

End more_claims.

Lemma run_taps_extends (exe : string) (enc : float64 -> string)
    (dec : string -> error + list float64) (draws : Plot -> bool)
    (taps : list (OS * string)) (w w' : World) :
  run_taps exe enc dec draws taps w = Some w' ->
  events w' = events w ++ since w w'.
Proof.
  revert w. induction taps as [|[os symbol] taps IH]; intros w Hrun;
    simpl in Hrun.
  - injection Hrun as <-. unfold since. by rewrite drop_all, app_nil_r.
  - destruct (fetchButton exe enc dec draws os symbol w) as [w1|] eqn:H1;
      [|discriminate].
    apply handler_extends in H1. apply IH in Hrun.
    assert (Hall : events w' = events w ++ since w w1 ++ since w1 w')
      by (by rewrite Hrun, H1 at 1; rewrite <- app_assoc).
    by rewrite (since_app _ _ _ Hall).
Qed.

(** X12. In every sequence of taps on the button that returns, whatever
    the environment answers during each tap, every temporary executable
    is the object of as many calls of [os.Remove] as it was made: no tap
    leaves a staged file without the call that removes it. (Whether a
    removal succeeds is the system's affair; the code drops its
    error.) *)
Theorem X12_taps_remove_what_they_stage (exe : string)
    (enc : float64 -> string) (dec : string -> error + list float64)
    (draws : Plot -> bool) (taps : list (OS * string)) (w w' : World)
    (name : string) :
  run_taps exe enc dec draws taps w = Some w' ->
  length (List.filter (is_Remove name) (since w w'))
  = length (List.filter (is_Staged name) (since w w')).
Proof.
  revert w. induction taps as [|[os symbol] taps IH]; intros w Hrun;
    simpl in Hrun.
  - injection Hrun as <-. unfold since. by rewrite drop_all.
  - destruct (fetchButton exe enc dec draws os symbol w) as [w1|] eqn:H1;
      [|discriminate].
    pose proof (handler_extends _ _ _ _ _ _ _ _ H1) as E1.
    pose proof (run_taps_extends _ _ _ _ _ _ _ Hrun) as E2.
    assert (Hall : events w' = events w ++ since w w1 ++ since w1 w')
      by (by rewrite E2, E1 at 1; rewrite <- app_assoc).
    rewrite (since_app _ _ _ Hall), !List.filter_app, !length_app.
    by rewrite (handler_balance _ _ _ _ _ _ _ _ _ H1), (IH _ Hrun).
Qed.

(** X13. [fetchStockData] asks once for the URL made of the symbol and
    the start date. If the request fails it returns that error and neither
    reads nor closes anything. Otherwise it reads the body once and closes
    it once, as the last thing it does, whether the read fails, the
    decoding fails or the data are returned; and it returns the error of
    the read, or else what the decoder returns, whatever the status of the
    response. *)
Theorem X13_fetch_closes_the_body (decode : string -> error + list StockData)
    (net : Net) (symbol : string) (months : Z) :
  let url := apiURL symbol (startDate_of net months) in
  let run := fetchStockData_body decode net symbol months in
  (forall err : error,
      Get_result net url = inl err ->
      run = (inl err, [NetGet url]))
  /\ (forall resp : Response,
        Get_result net url = inr resp ->
        run.2 = [NetGet url; NetReadAll; NetClose]
        /\ run.1 = match Body resp with
                   | inl err => inl err
                   | inr body => decode body
                   end)
  /\ (forall data : list StockData,
        run.1 = inr data
        <-> exists (resp : Response) (body : string),
              Get_result net url = inr resp
              /\ Body resp = inr body
              /\ decode body = inr data).
Proof.
  intros url run. subst url run. unfold fetchStockData_body.
  destruct (Get_result net _) as [err|resp] eqn:Hget.
  - split; [by intros e [= <-]|]. split; [done|].
    intros data. split; [done|]. by intros (r & b & Hr & _).
  - split; [done|]. split.
    + intros r [= <-].
      destruct (Body resp) as [e|body]; [done|].
      by destruct (decode body).
    + intros data. split.
      * intros Hres. exists resp.
        destruct (Body resp) as [e|body]; [done|].
        exists body. do 2 (split; [done|]).
        destruct (decode body) as [e|d]; [done|].
        simpl in Hres. by injection Hres as ->.
      * intros (r & b & [= <-] & Hb & Hd). by rewrite Hb, Hd.
Qed.

(** ** The further properties on concrete runs *)

Lemma X1_only_the_window_matters_witness :
  stockPoints ([1; 2]%float ++ prices90) = stockPoints prices90
  /\ predPoints ([1; 2]%float ++ prices90) [105]%float
     = predPoints prices90 [105]%float
  /\ plotData draws_ticks (os_with data5 predictor_ok)
       ([1; 2]%float ++ prices90) [105]%float "AAPL" world0
     = plotData draws_ticks (os_with data5 predictor_ok) prices90
         [105]%float "AAPL" world0.
Proof.
  apply (X1_only_the_window_matters draws_ticks (os_with data5 predictor_ok)
           [1; 2]%float prices90 [105]%float "AAPL" world0).
  unfold prices90. rewrite length_map, length_seq. lia.
Defined.

Lemma X5_write_failure_witness :
  Write_result os_disk_full
  = Some (PathError "write" temp_name "no space left on device")
  /\ since world0
       (callPythonARIMA exe0 encodeFloat_whole json_Unmarshal_examples
          os_disk_full prices5 world0).2
     = [EvTempFile temp_name; EvWrite temp_name; EvRemove temp_name].
Proof.
  split; [reflexivity|].
  apply (X5_write_failure exe0 encodeFloat_whole json_Unmarshal_examples
           os_disk_full prices5 world0 temp_name _
           prices5_finite eq_refl eq_refl).
Defined.

Lemma X6_start_failure_witness :
  Run_result (os_with data5 start_denied) temp_name
    (payload encodeFloat_whole prices5) = start_denied
  /\ (callPythonARIMA exe0 encodeFloat_whole json_Unmarshal_examples
        (os_with data5 start_denied) prices5 world0).1
     = inl (PathError "fork/exec" temp_name "permission denied").
Proof.
  split; [reflexivity|].
  apply (X6_start_failure exe0 encodeFloat_whole json_Unmarshal_examples
           (os_with data5 start_denied) prices5 world0 temp_name _
           prices5_finite eq_refl eq_refl eq_refl).
Defined.

(** A run of the handler that reaches the end, with its events. *)
Lemma handler_ok_run :
  exists w' : World,
    fetchButton exe0 encodeFloat_whole json_Unmarshal_examples draws_ticks
      (os_with data5 predictor_ok) "AAPL" world0 = Some w'
    /\ since world0 w'
       = (handler_prefix "AAPL" data5
          ++ arima_trace encodeFloat_whole (os_with data5 predictor_ok)
               prices5)
         ++ [EvSave (chart prices5 [105; 106]%float "AAPL")
               (8 * vg_Inch)%float (4 * vg_Inch)%float "plot.png";
             EvSetContent "plot.png"].
Proof.
  apply (handler_plots exe0 encodeFloat_whole json_Unmarshal_examples draws_ticks
           (os_with data5 predictor_ok) "AAPL" world0 data5
           [105; 106]%float).
  - reflexivity.
  - unfold len. simpl. lia.
  - vm_compute. reflexivity.
  - repeat constructor.
  - vm_compute. reflexivity.
  - reflexivity.
Qed.

Lemma X8_request_is_the_fetched_closes_witness :
  exists data : list StockData,
    fetch_result (os_with data5 predictor_ok) "AAPL" 12 = inr data
    /\ 2 <= len data
    /\ Forall (fun f => is_finite f = true) (List.map Close data)
    /\ payload encodeFloat_whole prices5
       = payload encodeFloat_whole (List.map Close data)
    /\ TempFile_result (os_with data5 predictor_ok) = inr temp_name
    /\ predictor_ok
       = Run_result (os_with data5 predictor_ok) temp_name
           (payload encodeFloat_whole prices5).
Proof.
  destruct handler_ok_run as (w' & Hrun & Hsince).
  apply (X8_request_is_the_fetched_closes exe0 encodeFloat_whole
           json_Unmarshal_examples draws_ticks (os_with data5 predictor_ok) "AAPL"
           world0 w' temp_name (payload encodeFloat_whole prices5)
           predictor_ok Hrun).
  rewrite Hsince. apply elem_of_app. left. apply elem_of_app. right.
  vm_compute. do 3 apply list_elem_of_further. apply list_elem_of_here.
Defined.

Lemma X9_image_shown_witness :
  exists w' : World,
    fetchButton exe0 encodeFloat_whole json_Unmarshal_examples draws_ticks
      (os_with data5 predictor_ok) "AAPL" world0 = Some w'
    /\ last (since world0 w') = Some (EvSetContent "plot.png")
    /\ Save_result (os_with data5 predictor_ok) = None.
Proof.
  destruct handler_ok_run as (w' & Hrun & Hsince).
  exists w'. split; [exact Hrun|]. split; [|reflexivity].
  apply (proj2 (X9_image_shown exe0 encodeFloat_whole json_Unmarshal_examples draws_ticks
                  (os_with data5 predictor_ok) "AAPL" world0 w' "plot.png"
                  Hrun)).
  rewrite Hsince. apply elem_of_app. right.
  apply list_elem_of_further, list_elem_of_here.
Defined.

Lemma X12_taps_remove_what_they_stage_witness :
  exists w' : World,
    run_taps exe0 encodeFloat_whole json_Unmarshal_examples draws_ticks
      [(os_with data5 predictor_ok, "AAPL");
       (os_with data1 predictor_ok, "MSFT");
       (os_with data5 predictor_failed, "AAPL")] world0 = Some w'
    /\ length (List.filter (is_Remove temp_name) (since world0 w'))
       = length (List.filter (is_Staged temp_name) (since world0 w')).
Proof.
  destruct (run_taps exe0 encodeFloat_whole json_Unmarshal_examples
              draws_ticks
              [(os_with data5 predictor_ok, "AAPL");
               (os_with data1 predictor_ok, "MSFT");
               (os_with data5 predictor_failed, "AAPL")] world0)
    as [w'|] eqn:Hrun.
  - exists w'. split; [reflexivity|].
    exact (X12_taps_remove_what_they_stage exe0 encodeFloat_whole
             json_Unmarshal_examples draws_ticks _ world0 w' temp_name Hrun).
  - vm_compute in Hrun. discriminate.
Defined.

(** Two closing prices of 1e17 and an empty forecast: the predictor
    answers, the drawing stops on the illegal range of the vertical axis,
    and the handler does not return. *)
Example handler_illegal_range :
  fetchButton exe0 encodeFloat_whole json_Unmarshal_examples draws_ticks
    (os_with [mkStockData "AAPL" 1e17 "2024-01-02";
              mkStockData "AAPL" 1e17 "2024-01-03"]%float
             (Exited (mkOutcome 0 "[]" EmptyString)))
    "AAPL" world0 = None.
Proof. vm_compute. reflexivity. Qed.

(** Three taps, two of which reach the predictor: two files staged, two
    calls to remove them. *)
Example taps_counts :
  (fun w' => (length (List.filter (is_Staged temp_name) (since world0 w')),
              length (List.filter (is_Remove temp_name) (since world0 w'))))
  <$> run_taps exe0 encodeFloat_whole json_Unmarshal_examples draws_ticks
        [(os_with data5 predictor_ok, "AAPL");
         (os_with data1 predictor_ok, "MSFT");
         (os_with data5 predictor_failed, "AAPL")] world0
  = Some (2%nat, 2%nat).
Proof. vm_compute. reflexivity. Qed.

(** The fetch on a provider that answers, and on one that is down. *)
Example fetch_ok :
  fetchStockData_body decode_examples net_ok "AAPL" 12
  = (inr data1,
     [NetGet (apiURL "AAPL" "2024-01-02"); NetReadAll; NetClose]).
Proof. vm_compute. reflexivity. Qed.

Example fetch_down :
  fetchStockData_body decode_examples net_down "AAPL" 12
  = (inl (OtherError "dial tcp: no route to host"),
     [NetGet (apiURL "AAPL" "2024-01-02")]).
Proof. vm_compute. reflexivity. Qed.
